(** * Session orchestrator ([tmux/create_tmux_sessions.py])

  A shallow embedding of the script that drives the [tmux] command-line
  tool: the Python string primitives it relies on, a small state and
  exception monad for the process (terminal, standard input, environment,
  external commands), the five functions of the script, and a reference
  model of the multiplexer's session table. *)

From Stdlib Require Import String Ascii List ZArith Lia Bool Arith.
From Stdlib Require Import DecimalString.
Import ListNotations.
Open Scope string_scope.

(** ** Python string primitives

  Text (Python's [str]) is modelled by the [string] of its UTF-8 bytes, the
  form in which the script's own literals stand in its source file. The
  bytes below 128 are the ASCII characters themselves and occur nowhere
  inside the UTF-8 form of another character, so counting and splitting at
  an ASCII character is the same on bytes as on code points. White space
  is the class of [str.isspace], which [str.strip] removes: it has members
  outside ASCII. *)

Module Py.

(** White space whose UTF-8 form is one byte: U+0009..U+000D, U+001C..U+001F
    and U+0020. *)
Definition space1 (a : ascii) : bool :=
  let n := nat_of_ascii a in
  (((9 <=? n) && (n <=? 13)) || ((28 <=? n) && (n <=? 32)))%nat.

(** Two bytes: U+0085 ([C2 85]) and U+00A0 ([C2 A0]). *)
Definition space2 (a b : ascii) : bool :=
  let x := nat_of_ascii a in
  let y := nat_of_ascii b in
  ((x =? 194) && ((y =? 133) || (y =? 160)))%nat.

(** Three bytes: U+1680 ([E1 9A 80]), U+2000..U+200A ([E2 80 80] to
    [E2 80 8A]), U+2028, U+2029 and U+202F ([E2 80 A8], [E2 80 A9],
    [E2 80 AF]), U+205F ([E2 81 9F]) and U+3000 ([E3 80 80]). *)
Definition space3 (a b c : ascii) : bool :=
  let x := nat_of_ascii a in
  let y := nat_of_ascii b in
  let z := nat_of_ascii c in
  (((x =? 225) && (y =? 154) && (z =? 128)) ||
   ((x =? 226) && (y =? 128) &&
      (((128 <=? z) && (z <=? 138)) || (z =? 168) || (z =? 169) || (z =? 175))) ||
   ((x =? 226) && (y =? 129) && (z =? 159)) ||
   ((x =? 227) && (y =? 128) && (z =? 128)))%nat.

(** [s.lstrip()]: the white space characters at the front are dropped. *)
Fixpoint lstrip (s : string) : string :=
  match s with
  | EmptyString => EmptyString
  | String a s1 =>
      if space1 a then lstrip s1
      else
        match s1 with
        | EmptyString => s
        | String b s2 =>
            if space2 a b then lstrip s2
            else
              match s2 with
              | EmptyString => s
              | String c s3 => if space3 a b c then lstrip s3 else s
              end
        end
  end.

(** [s.rstrip()]: the text is cut at the first place from which only white
    space follows. *)
Fixpoint rstrip (s : string) : string :=
  match s with
  | EmptyString => EmptyString
  | String a s1 =>
      match lstrip s with
      | EmptyString => EmptyString
      | String _ _ => String a (rstrip s1)
      end
  end.

(** [s.strip()] *)
Definition strip (s : string) : string := rstrip (lstrip s).

(** [s.count(c)] for a one-character needle. *)
Fixpoint count (c : ascii) (s : string) : Z :=
  match s with
  | String a s' => ((if Ascii.eqb a c then 1 else 0) + count c s')%Z
  | EmptyString => 0%Z
  end.

(** [s.split(c)] for a one-character separator: never the empty list. *)
Fixpoint split (c : ascii) (s : string) : list string :=
  match s with
  | EmptyString => [EmptyString]
  | String a s' =>
      if Ascii.eqb a c then EmptyString :: split c s'
      else match split c s' with
           | h :: t => String a h :: t
           | [] => [String a EmptyString]
           end
  end.

(** [c in s] for one character. *)
Fixpoint contains (c : ascii) (s : string) : bool :=
  match s with
  | EmptyString => false
  | String a s' => Ascii.eqb a c || contains c s'
  end.

(** [str(n)] for a non-negative integer. *)
Definition str (n : nat) : string := NilEmpty.string_of_uint (Nat.to_uint n).

(** The line ends of a text read with [text=True]:
    [data.replace("\r\n", "\n").replace("\r", "\n")], in one pass. *)
Fixpoint universal_newlines (s : string) : string :=
  match s with
  | EmptyString => EmptyString
  | String a r =>
      if Ascii.eqb a "013" then
        String "010"
          match r with
          | EmptyString => EmptyString
          | String b r' =>
              if Ascii.eqb b "010" then universal_newlines r' else universal_newlines r
          end
      else String a (universal_newlines r)
  end.

(** What the script takes from the interpreter as it finds it. [int] is
    [int(s)] on a line of text, [None] standing for [ValueError]: it follows
    the Unicode database (the decimal digits and the white space of every
    script) and the interpreter's limit on the length of a numeral. [decode]
    is [bytes.decode] in the encoding of the locale, [None] standing for
    [UnicodeDecodeError]: the bytes a child process wrote, turned into text.
    Neither is spelled out here, and the properties below hold for every
    interpreter; all that is used is that no bytes at all are the empty
    text. *)
Class Interpreter : Type := {
  int : string -> option Z;
  decode : string -> option string;
  decode_empty : decode EmptyString = Some EmptyString
}.

(** A stream read with [text=True]: decoded, then its line ends
    translated. *)
Definition text {PY : Interpreter} (raw : string) : option string :=
  option_map universal_newlines (decode raw).

End Py.

(** ** Cutting a string at a character *)

(** The part of [s] before the first [c]; all of [s] when [c] does not occur. *)
Fixpoint before_first (c : ascii) (s : string) : string :=
  match s with
  | EmptyString => EmptyString
  | String a s' => if Ascii.eqb a c then EmptyString else String a (before_first c s')
  end.

(** The part of [s] after the first [c], when [c] occurs. *)
Fixpoint after_first (c : ascii) (s : string) : option string :=
  match s with
  | EmptyString => None
  | String a s' => if Ascii.eqb a c then Some s' else after_first c s'
  end.

(** A configured entry, read the way the specification words it: the name
    is what precedes the first [=], the address what lies between the first
    [=] and the next one (or the end of the entry). *)
Definition entry_name (entry : string) : string := before_first "=" entry.

Definition entry_address (entry : string) : option string :=
  option_map (before_first "=") (after_first "=" entry).


(** ** The process: results, exceptions and the outside world *)

(** The exceptions the script can end with. [SystemExit] is what [exit(n)]
    raises; the others are raised by [int], by indexing, by [input] at end of
    input, and by [subprocess.run]: when the executable cannot be started,
    and when captured output is not text in the locale's encoding. What
    comes from outside the script's own steps (a signal such as the
    interrupt key, a terminal that can no longer be written to) is not
    modelled. *)
Inductive Exn : Type :=
| SystemExit (code : Z)
| ValueError
| IndexError
| EOFError
| FileNotFoundError
| UnicodeDecodeError.

Inductive Result (A : Type) : Type :=
| Ret (a : A)
| Raise (e : Exn).
Arguments Ret {A} a.
Arguments Raise {A} e.

(** Exit status of the interpreter: 0 after a normal return, the code of
    [SystemExit], 1 after any other uncaught exception. This is the status
    of an interpreter that can write out at exit what was printed. *)
Definition exit_status {A : Type} (r : Result A) : Z :=
  match r with
  | Ret _ => 0
  | Raise (SystemExit n) => n
  | Raise _ => 1
  end%Z.

(** A finished process: the exit code and what it wrote on its standard
    output and on its error output. The same record is
    [subprocess.CompletedProcess]: there the two streams hold the captured
    text, and the empty string when the stream was not captured. *)
Record CompletedProcess : Type := mkCompleted {
  returncode : Z;
  stdout : string;
  stderr : string
}.

(** What starting an external command gives: the finished process, or no
    process at all when the executable is not found. *)
Inductive Launch : Type :=
| Launched (cp : CompletedProcess)
| NotFound.

(** Where the standard output of a child process goes. The error output is
    captured together with the standard output ([capture_output=True]); in
    every other call it is discarded or goes to the terminal, and is not
    followed here. *)
Inductive StdoutMode : Type := Inherit | DevNull | Capture.

(** One item on the terminal: a line written by [print], the prompt of
    [input], or the inherited standard output of a child process. *)
Inductive Out : Type :=
| Printed (line : string)
| Prompt (text : string)
| Tool (text : string).

Section Script.

(** The interpreter the script runs on. *)
Context {PY : Py.Interpreter}.

(** The state of everything outside the process (the multiplexer server
    above all) and the effect of running an argument vector in it. *)
Variable Ext : Type.
Variable exec : list string -> Ext -> Launch * Ext.

(** Configuration: the key file ([os.path.expanduser] of a fixed path) and
    the list of [name=address] entries. *)
Variable SSH_KEY : string.
Variable SERVERS : list string.

(** [stdin] holds the lines that [input] is given, in order: what reaches
    the script itself of its standard input. The child processes inherit
    that stream (no call passes [stdin=]); what they take from it is not in
    the list. *)
Record World : Type := mkWorld {
  ext : Ext;
  environ : string -> option string;
  stdin : list string;
  term : list Out;
  trace : list (list string)
}.

Definition M (A : Type) : Type := World -> Result A * World.

Definition ret {A : Type} (a : A) : M A := fun w => (Ret a, w).

Definition raise {A : Type} (e : Exn) : M A := fun w => (Raise e, w).

Definition bind {A B : Type} (m : M A) (k : A -> M B) : M B :=
  fun w =>
    match m w with
    | (Ret a, w') => k a w'
    | (Raise e, w') => (Raise e, w')
    end.

Notation "x <- m ;; k" := (bind m (fun x => k))
  (at level 61, m at next level, right associativity).
Notation "m ;; k" := (bind m (fun _ => k))
  (at level 61, right associativity).

(** [for x in xs: body(x)] *)
Fixpoint for_each {A : Type} (xs : list A) (body : A -> M unit) : M unit :=
  match xs with
  | [] => ret tt
  | x :: rest => body x ;; for_each rest body
  end.

Definition emit (o : Out) : M unit :=
  fun w => (Ret tt, mkWorld (ext w) (environ w) (stdin w) (term w ++ [o])%list (trace w)).

(** [print(s)] *)
Definition print (s : string) : M unit := emit (Printed s).

(** [input(prompt)]: writes the prompt and takes one line of standard input. *)
Definition input (prompt : string) : M string :=
  emit (Prompt prompt) ;;
  fun w =>
    match stdin w with
    | [] => (Raise EOFError, w)
    | line :: rest =>
        (Ret line, mkWorld (ext w) (environ w) rest (term w) (trace w))
    end.

(** [os.environ.get(key)] *)
Definition environ_get (key : string) : M (option string) :=
  fun w => (Ret (environ w key), w).

(** Truth value of an optional string: [None] and the empty string are false. *)
Definition truthy (v : option string) : bool :=
  match v with
  | Some (String _ _) => true
  | _ => false
  end.

(** [subprocess.run(argv, ...)]: the command is recorded, started and waited
    for. Inherited output reaches the terminal. Captured output is read with
    [text=True]: once the process has ended, its standard output and then
    its error output are decoded and their line ends translated, and
    [UnicodeDecodeError] is raised when either is not text. *)
Definition subprocess_run (argv : list string) (mode : StdoutMode)
  : M CompletedProcess :=
  fun w =>
    let tr := (trace w ++ [argv])%list in
    match exec argv (ext w) with
    | (NotFound, e) =>
        (Raise FileNotFoundError, mkWorld e (environ w) (stdin w) (term w) tr)
    | (Launched cp, e) =>
        let shown := match mode with Inherit => [Tool (stdout cp)] | _ => [] end in
        let after := mkWorld e (environ w) (stdin w) (term w ++ shown)%list tr in
        match mode with
        | Capture =>
            match Py.text (stdout cp), Py.text (stderr cp) with
            | Some out, Some err => (Ret (mkCompleted (returncode cp) out err), after)
            | _, _ => (Raise UnicodeDecodeError, after)
            end
        | _ => (Ret (mkCompleted (returncode cp) EmptyString EmptyString), after)
        end
    end.

(** ** The script *)

(** Lines 15-29. *)
Definition check_session (session_name : string) : M bool :=
  result <- subprocess_run ["tmux"; "has-session"; "-t"; session_name] Inherit ;;
  ret (returncode result =? 0)%Z.

(** The two keystroke strings of lines 65, 69 and 74. *)
Definition ssh_command (server : string) : string :=
  "ssh -t -i " ++ SSH_KEY ++ " " ++ server.

Definition htop_command (server : string) : string :=
  "ssh -t -i " ++ SSH_KEY ++ " " ++ server ++ " 'htop'".

(** Lines 32-79. The result is [Some 0] for [return 0] and [None] for the
    implicit [return None]. *)
Definition create_server_session (session_name server : string) : M (option Z) :=
  exists_ <- check_session session_name ;;
  if exists_ then
    print ("Session " ++ session_name ++ " existiert bereits. Verwende bestehende Session...") ;;
    ret (Some 0%Z)
  else
    print ("Erstelle neue Session: " ++ session_name ++ " für Server: " ++ server) ;;
    subprocess_run ["tmux"; "new-session"; "-d"; "-s"; session_name] Inherit ;;
    subprocess_run ["tmux"; "rename-window"; "-t"; session_name; "main"] Inherit ;;
    subprocess_run ["tmux"; "send-keys"; "-t"; session_name; ssh_command server; "C-m"] Inherit ;;
    subprocess_run ["tmux"; "split-window"; "-h"; "-t"; session_name] Inherit ;;
    subprocess_run ["tmux"; "send-keys"; "-t"; session_name; ssh_command server; "C-m"] Inherit ;;
    subprocess_run ["tmux"; "new-window"; "-t"; session_name; "-n"; "monitoring"] Inherit ;;
    subprocess_run ["tmux"; "send-keys"; "-t"; session_name ++ ":monitoring";
                    htop_command server; "C-m"] Inherit ;;
    subprocess_run ["tmux"; "select-window"; "-t"; session_name ++ ":main"] Inherit ;;
    print ("Session " ++ session_name ++ " wurde erfolgreich erstellt") ;;
    ret None.

(** [xs[i]] for a non-negative index. *)
Definition index {A : Type} (xs : list A) (i : nat) : M A :=
  match nth_error xs i with
  | Some x => ret x
  | None => raise IndexError
  end.

(** Lines 100-103: the body of the loop of [list_sessions]. *)
Definition show_windows (server : string) : M unit :=
  session_name <- index (Py.split "=" server) 0 ;;
  exists_ <- check_session session_name ;;
  if exists_ then
    print (String "010" "Session: " ++ session_name) ;;
    subprocess_run ["tmux"; "list-windows"; "-t"; session_name] Inherit ;;
    ret tt
  else ret tt.

(** Lines 82-103. *)
Definition list_sessions : M unit :=
  print "Verfügbare Sessions:" ;;
  subprocess_run ["tmux"; "list-sessions"] Inherit ;;
  print (String "010" "Fenster-Details:") ;;
  for_each SERVERS show_windows.

(** Lines 106-124. *)
Definition attach_session (session_name : string) : M unit :=
  tmux_var <- environ_get "TMUX" ;;
  if negb (truthy tmux_var) then
    print ("Verbinde mit Session " ++ session_name ++ "...") ;;
    subprocess_run ["tmux"; "attach-session"; "-t"; session_name] Inherit ;;
    ret tt
  else
    print ("Wechsle zu Session " ++ session_name ++ "...") ;;
    subprocess_run ["tmux"; "switch-client"; "-t"; session_name] Inherit ;;
    ret tt.

(** [for i, session in enumerate(sessions, start): print(f"{i}) {session}")] *)
Fixpoint print_menu (start : nat) (sessions : list string) : M unit :=
  match sessions with
  | [] => ret tt
  | session :: rest =>
      print (Py.str start ++ ") " ++ session) ;;
      print_menu (S start) rest
  end.

(** [int(s)] raising [ValueError]. *)
Definition int_of (s : string) : M Z :=
  match Py.int s with
  | Some z => ret z
  | None => raise ValueError
  end.

(** Lines 143-145: the body of the creation loop of [main]. *)
Definition setup_entry (server : string) : M unit :=
  session_name <- index (Py.split "=" server) 0 ;;
  server_address <- index (Py.split "=" server) 1 ;;
  create_server_session session_name server_address ;;
  ret tt.

(** Lines 136-139 of [main]: the tool check; [exit(1)] raises [SystemExit]. *)
Definition require_tmux : M unit :=
  probe <- subprocess_run ["command"; "-v"; "tmux"] DevNull ;;
  if negb (returncode probe =? 0)%Z then
    print "Tmux ist nicht installiert." ;;
    raise (SystemExit 1)
  else ret tt.

(** Lines 136-149 of [main]: the tool check, the creation loop and the
    status listing. *)
Definition main_setup : M unit :=
  require_tmux ;;
  for_each SERVERS setup_entry ;;
  print (String "010" "Status der Sessions:") ;;
  list_sessions.

(** Lines 152-153: the number of sessions read off the listing. *)
Definition session_count (listing : string) : Z :=
  (Py.count "010" (Py.strip listing) + 1)%Z.

(** Lines 151-167 of [main]: the session count, the menu and the attach. *)
Definition main_select : M unit :=
  listing <- subprocess_run ["tmux"; "list-sessions"] Capture ;;
  if (session_count (stdout listing) >? 1)%Z then
    print (String "010" "Mehrere Sessions verfügbar. Mit welcher Session möchten Sie sich verbinden?") ;;
    names <- subprocess_run ["tmux"; "list-sessions"; "-F"; "#{session_name}"] Capture ;;
    let sessions := Py.split "010" (Py.strip (stdout names)) in
    print_menu 1 sessions ;;
    line <- input "Auswahl: " ;;
    number <- int_of line ;;
    let selected_session := (number - 1)%Z in
    if ((0 <=? selected_session) && (selected_session <? Z.of_nat (length sessions)))%Z then
      session <- index sessions (Z.to_nat selected_session) ;;
      attach_session session
    else ret tt
  else
    first <- index SERVERS 0 ;;
    session_name <- index (Py.split "=" first) 0 ;;
    attach_session session_name.

(** Lines 127-167. *)
Definition main : M unit := main_setup ;; main_select.

End Script.

Arguments mkWorld {Ext} ext environ stdin term trace.
Arguments ext {Ext} w.
Arguments environ {Ext} w key.
Arguments stdin {Ext} w.
Arguments term {Ext} w.
Arguments trace {Ext} w.
Arguments ret {Ext A} a w.
Arguments raise {Ext A} e w.
Arguments bind {Ext A B} m k w.
Arguments for_each {Ext A} xs body w.
Arguments emit {Ext} o w.
Arguments print {Ext} s w.
Arguments input {Ext} prompt w.
Arguments environ_get {Ext} key w.
Arguments index {Ext A} xs i w.
Arguments print_menu {Ext} start sessions w.
Arguments int_of {PY Ext} s w.
Arguments subprocess_run {PY Ext} exec argv mode w.
Arguments check_session {PY Ext} exec session_name w.
Arguments create_server_session {PY Ext} exec SSH_KEY session_name server w.
Arguments list_sessions {PY Ext} exec SERVERS w.
Arguments attach_session {PY Ext} exec session_name w.
Arguments show_windows {PY Ext} exec server w.
Arguments setup_entry {PY Ext} exec SSH_KEY server w.
Arguments require_tmux {PY Ext} exec w.
Arguments main_setup {PY Ext} exec SSH_KEY SERVERS w.
Arguments main_select {PY Ext} exec SERVERS w.
Arguments main {PY Ext} exec SSH_KEY SERVERS w.

(** The configuration the script ships with (lines 7-9). *)
Definition SERVERS_shipped : list string :=
  ["moodle=root@moodle.talent-factory.xyz"].

(** ** An interpreter for the concrete runs

    The properties below are stated for every interpreter; the runs that
    illustrate them need one. This one decodes as CPython does in a UTF-8
    locale (the bytes must be well-formed UTF-8 and are the text), and it
    reads a line as a number when the line is a plain numeral of at most
    640 ASCII digits, a length no setting of the interpreter's limit
    refuses. Where it gives a number CPython gives the same one; the other
    lines it refuses, among them every line without a digit, which CPython
    refuses too. *)

Definition between (lo hi : nat) (a : ascii) : bool :=
  ((lo <=? nat_of_ascii a) && (nat_of_ascii a <=? hi))%nat.

(** The second byte of a three-byte and of a four-byte form: no overlong
    forms, no surrogates, nothing above U+10FFFF. *)
Definition second_of_three (a b : ascii) : bool :=
  if between 224 224 a then between 160 191 b
  else if between 237 237 a then between 128 159 b
  else between 128 191 b.

Definition second_of_four (a b : ascii) : bool :=
  if between 240 240 a then between 144 191 b
  else if between 244 244 a then between 128 143 b
  else between 128 191 b.

Fixpoint well_formed_utf8 (s : string) : bool :=
  match s with
  | EmptyString => true
  | String a s1 =>
      if between 0 127 a then well_formed_utf8 s1
      else
        match s1 with
        | EmptyString => false
        | String b s2 =>
            if between 194 223 a then between 128 191 b && well_formed_utf8 s2
            else
              match s2 with
              | EmptyString => false
              | String c s3 =>
                  if between 224 239 a then
                    second_of_three a b && between 128 191 c && well_formed_utf8 s3
                  else
                    match s3 with
                    | EmptyString => false
                    | String d s4 =>
                        between 240 244 a && second_of_four a b &&
                        between 128 191 c && between 128 191 d && well_formed_utf8 s4
                    end
              end
        end
  end.

Definition decode_utf8 (raw : string) : option string :=
  if well_formed_utf8 raw then Some raw else None.

Fixpoint digits (s : string) (acc : Z) : option Z :=
  match s with
  | EmptyString => Some acc
  | String c r =>
      if between 48 57 c
      then digits r (10 * acc + Z.of_nat (nat_of_ascii c - 48))%Z
      else None
  end.

Definition numeral (s : string) : option Z :=
  match s with
  | EmptyString => None
  | String _ _ => if (String.length s <=? 640)%nat then digits s 0%Z else None
  end.

Definition sample_interpreter : Py.Interpreter :=
  {| Py.int := numeral; Py.decode := decode_utf8; Py.decode_empty := eq_refl |}.

(** ** Reference model of the multiplexer

    The script only sees [tmux] through argument vectors, exit codes and
    output. The model below gives the session table an idealised semantics
    for exactly the invocations the script makes: sessions are found by
    their exact name, a target [s:w] is cut at its first colon, windows are
    found by name, and a session name is accepted under the rule of tmux up
    to 3.1 (not empty, no colon, no dot). Every other invocation is a usage
    error. No command of the model reads standard input. *)

Module Tmux.

Record Pane : Type := mkPane { keys : list string }.

Record Window : Type := mkWindow {
  wname : string;
  panes : list Pane;
  active_pane : nat
}.

Record Session : Type := mkSession {
  sname : string;
  windows : list Window;
  current : nat
}.

Record State : Type := mkState {
  installed : bool;
  table : list Session
}.

Inductive Cmd : Type :=
| HasSession (target : string)
| NewSession (name : string)
| RenameWindow (target name : string)
| SendKeys (target : string) (ks : list string)
| SplitWindow (target : string)
| NewWindow (target name : string)
| SelectWindow (target : string)
| ListSessions (format : option string)
| ListWindows (target : string)
| AttachSession (target : string)
| SwitchClient (target : string).

(** The argument vectors (after the program name) that the model knows. *)
Definition parse (args : list string) : option Cmd :=
  match args with
  | [] => None
  | sub :: rest =>
      if sub =? "has-session" then
        match rest with
        | [f; t] => if f =? "-t" then Some (HasSession t) else None
        | _ => None
        end
      else if sub =? "new-session" then
        match rest with
        | [d; s; n] => if (d =? "-d") && (s =? "-s") then Some (NewSession n) else None
        | _ => None
        end
      else if sub =? "rename-window" then
        match rest with
        | [f; t; n] => if f =? "-t" then Some (RenameWindow t n) else None
        | _ => None
        end
      else if sub =? "send-keys" then
        match rest with
        | f :: t :: ks => if f =? "-t" then Some (SendKeys t ks) else None
        | _ => None
        end
      else if sub =? "split-window" then
        match rest with
        | [h; f; t] => if (h =? "-h") && (f =? "-t") then Some (SplitWindow t) else None
        | _ => None
        end
      else if sub =? "new-window" then
        match rest with
        | [f; t; g; n] => if (f =? "-t") && (g =? "-n") then Some (NewWindow t n) else None
        | _ => None
        end
      else if sub =? "select-window" then
        match rest with
        | [f; t] => if f =? "-t" then Some (SelectWindow t) else None
        | _ => None
        end
      else if sub =? "list-sessions" then
        match rest with
        | [] => Some (ListSessions None)
        | [f; fmt] => if f =? "-F" then Some (ListSessions (Some fmt)) else None
        | _ => None
        end
      else if sub =? "list-windows" then
        match rest with
        | [f; t] => if f =? "-t" then Some (ListWindows t) else None
        | _ => None
        end
      else if sub =? "attach-session" then
        match rest with
        | [f; t] => if f =? "-t" then Some (AttachSession t) else None
        | _ => None
        end
      else if sub =? "switch-client" then
        match rest with
        | [f; t] => if f =? "-t" then Some (SwitchClient t) else None
        | _ => None
        end
      else None
  end.

(** A target is [session] or [session:window]: the session part and the
    window part, if any. *)
Definition target_session (t : string) : string := before_first ":" t.

Definition target_window (t : string) : option string := after_first ":" t.

(** The name rule of [new-session]. *)
Definition session_check_name (n : string) : bool :=
  negb (n =? EmptyString) && negb (Py.contains ":" n) && negb (Py.contains "." n).

Definition has_session (n : string) (tbl : list Session) : bool :=
  existsb (fun s => sname s =? n) tbl.

(** Applies [f] to the first session named [n]; [None] when there is no such
    session or [f] fails. *)
Fixpoint alter_session (n : string) (f : Session -> option Session)
  (tbl : list Session) : option (list Session) :=
  match tbl with
  | [] => None
  | s :: rest =>
      if sname s =? n then option_map (fun s' => s' :: rest) (f s)
      else option_map (cons s) (alter_session n f rest)
  end.

Fixpoint find_index {A : Type} (p : A -> bool) (l : list A) : option nat :=
  match l with
  | [] => None
  | x :: rest => if p x then Some 0 else option_map S (find_index p rest)
  end.

Fixpoint alter_nth {A : Type} (i : nat) (f : A -> A) (l : list A) : list A :=
  match l, i with
  | [], _ => []
  | x :: rest, 0 => f x :: rest
  | x :: rest, S j => x :: alter_nth j f rest
  end.

(** The window a target designates inside its session: the named one, or
    the current one when the target names no window. *)
Definition window_index (w : option string) (s : Session) : option nat :=
  match w with
  | Some name => find_index (fun x => wname x =? name) (windows s)
  | None => if (current s <? length (windows s))%nat then Some (current s) else None
  end.

Definition alter_window (w : option string) (f : Window -> Window)
  (s : Session) : option Session :=
  match window_index w s with
  | Some i => Some (mkSession (sname s) (alter_nth i f (windows s)) (current s))
  | None => None
  end.

Definition default_window_name : string := "sh".

Definition fresh_pane : Pane := mkPane [].

Definition fresh_window (name : string) : Window := mkWindow name [fresh_pane] 0.

Definition fresh_session (n : string) : Session :=
  mkSession n [fresh_window default_window_name] 0.

Definition rename (name : string) (w : Window) : Window :=
  mkWindow name (panes w) (active_pane w).

Definition type_keys (ks : list string) (w : Window) : Window :=
  mkWindow (wname w)
    (alter_nth (active_pane w) (fun p => mkPane (keys p ++ ks)%list) (panes w))
    (active_pane w).

(** The new pane is placed after the active one and becomes active. *)
Definition split_pane (w : Window) : Window :=
  mkWindow (wname w)
    (firstn (S (active_pane w)) (panes w) ++ fresh_pane :: skipn (S (active_pane w)) (panes w))%list
    (S (active_pane w)).

Definition add_window (name : string) (s : Session) : option Session :=
  Some (mkSession (sname s) (windows s ++ [fresh_window name])%list (length (windows s))).

Definition select (w : option string) (s : Session) : option Session :=
  match window_index w s with
  | Some i => Some (mkSession (sname s) (windows s) i)
  | None => None
  end.

(** The effect of a command on the session table; [None] is failure. *)
Definition effect (c : Cmd) (tbl : list Session) : option (list Session) :=
  match c with
  | HasSession t => if has_session t tbl then Some tbl else None
  | NewSession n =>
      if session_check_name n && negb (has_session n tbl)
      then Some (tbl ++ [fresh_session n])%list else None
  | RenameWindow t name =>
      alter_session (target_session t) (alter_window (target_window t) (rename name)) tbl
  | SendKeys t ks =>
      alter_session (target_session t) (alter_window (target_window t) (type_keys ks)) tbl
  | SplitWindow t =>
      alter_session (target_session t) (alter_window (target_window t) split_pane) tbl
  | NewWindow t name =>
      alter_session (target_session t) (add_window name) tbl
  | SelectWindow t =>
      alter_session (target_session t) (select (target_window t)) tbl
  | ListSessions _ => match tbl with [] => None | _ => Some tbl end
  | ListWindows t | AttachSession t | SwitchClient t =>
      if has_session t tbl then Some tbl else None
  end.

Definition newline : string := String "010" EmptyString.

Definition session_line (format : option string) (s : Session) : string :=
  match format with
  | None => sname s ++ ": " ++ Py.str (length (windows s)) ++ " windows" ++ newline
  | Some fmt => (if fmt =? "#{session_name}" then sname s else fmt) ++ newline
  end.

Fixpoint window_lines (i : nat) (ws : list Window) : string :=
  match ws with
  | [] => EmptyString
  | w :: rest =>
      Py.str i ++ ": " ++ wname w ++ " (" ++ Py.str (length (panes w)) ++ " panes)"
        ++ newline ++ window_lines (S i) rest
  end.

(** What a command writes on its standard output. *)
Definition output (c : Cmd) (tbl : list Session) : string :=
  match c with
  | ListSessions format => String.concat EmptyString (map (session_line format) tbl)
  | ListWindows t =>
      match find (fun s => sname s =? t) tbl with
      | Some s => window_lines 0 (windows s)
      | None => EmptyString
      end
  | _ => EmptyString
  end.

(** A command that succeeds writes its output; one that fails writes
    nothing on its standard output. The messages of the tool on its error
    output are left out of the model: the error stream is empty. *)
Definition run (args : list string) (st : State) : CompletedProcess * State :=
  match parse args with
  | None => (mkCompleted 1 EmptyString EmptyString, st)
  | Some c =>
      match effect c (table st) with
      | Some tbl =>
          (mkCompleted 0 (output c (table st)) EmptyString, mkState (installed st) tbl)
      | None => (mkCompleted 1 EmptyString EmptyString, st)
      end
  end.

(** The world seen through [subprocess.run] on a system that has the
    [command] utility as an executable file on the search path, as POSIX
    asks of the regular built-in utilities: [tmux] itself when it is
    installed, and the [command -v] used to look for it. *)
Definition exec (argv : list string) (st : State) : Launch * State :=
  match argv with
  | [] => (NotFound, st)
  | prog :: args =>
      if prog =? "tmux" then
        if installed st then let (cp, st') := run args st in (Launched cp, st')
        else (NotFound, st)
      else if prog =? "command" then
        match args with
        | [v; name] =>
            if (v =? "-v") && (name =? "tmux") && installed st
            then (Launched (mkCompleted 0 ("tmux" ++ newline) EmptyString), st)
            else (Launched (mkCompleted 1 EmptyString EmptyString), st)
        | _ => (Launched (mkCompleted 1 EmptyString EmptyString), st)
        end
      else (NotFound, st)
  end.


(** The commands that only ask. *)
Definition readonly (c : Cmd) : bool :=
  match c with
  | HasSession _ | ListSessions _ | ListWindows _ | AttachSession _ | SwitchClient _ => true
  | _ => false
  end.

(** Argument vectors that cannot change the session table. *)
Definition quiet (argv : list string) : bool :=
  match argv with
  | prog :: args =>
      if prog =? "tmux" then
        match parse args with Some c => readonly c | None => true end
      else true
  | [] => true
  end.

(** The table only grows: the tool stays installed and no session name
    disappears. *)
Definition extends (st st' : State) : Prop :=
  installed st' = installed st /\
  forall n, has_session n (table st) = true -> has_session n (table st') = true.

(** A process started on a fresh terminal. *)
Definition world (st : State) (env : string -> option string)
  (lines : list string) : World State :=
  mkWorld st env lines [] [].

Definition no_env : string -> option string := fun _ => None.

(** Inside a multiplexer session the [TMUX] variable names its socket. *)
Definition inside_env : string -> option string :=
  fun key => if key =? "TMUX" then Some "/tmp/tmux-1000/default,4242,0" else None.

(** Sample states: no tool, a tool without sessions. *)
Definition missing : State := mkState false [].

Definition empty : State := mkState true [].

(** The session that [create_server_session] leaves behind for a new name:
    window [main] with two panes, window [monitoring] with one, [main]
    current. *)
Definition created_session (key n a : string) : Session :=
  mkSession n
    [mkWindow "main"
       [mkPane ["ssh -t -i " ++ key ++ " " ++ a; "C-m"];
        mkPane ["ssh -t -i " ++ key ++ " " ++ a; "C-m"]] 1;
     mkWindow "monitoring"
       [mkPane ["ssh -t -i " ++ key ++ " " ++ a ++ " 'htop'"; "C-m"]] 0]
    0.

(** A sample state with one session whose name, the single byte [FF], is
    not text in UTF-8. *)
Definition stray_session : State :=
  mkState true [fresh_session (String "255" EmptyString)].

(** A sample state with the one session [db]. *)
Definition one_session : State :=
  mkState true [created_session "/home/admin/.ssh/id_ed25519" "db" "root@db.example.com"].



End Tmux.

(** ** Vocabulary of the statements *)

Definition probe_argv : list string := ["command"; "-v"; "tmux"].

Definition has_session_argv (n : string) : list string :=
  ["tmux"; "has-session"; "-t"; n].

Definition list_argv : list string := ["tmux"; "list-sessions"].

Definition names_argv : list string :=
  ["tmux"; "list-sessions"; "-F"; "#{session_name}"].

(** The command and the message [attach_session] chooses in an environment. *)
Definition attach_argv (env : string -> option string) (n : string) : list string :=
  ["tmux"; if truthy (env "TMUX") then "switch-client" else "attach-session"; "-t"; n].

Definition attach_message (env : string -> option string) (n : string) : string :=
  if truthy (env "TMUX") then "Wechsle zu Session " ++ n ++ "..."
  else "Verbinde mit Session " ++ n ++ "...".


(** What a finished or failed launch contributes to the result, the
    terminal and the captured text. *)
Definition shown (mode : StdoutMode) (l : Launch) : list Out :=
  match l, mode with
  | Launched cp, Inherit => [Tool (stdout cp)]
  | _, _ => []
  end.

Definition completed {PY : Py.Interpreter} (mode : StdoutMode) (l : Launch)
  : Result CompletedProcess :=
  match l with
  | Launched cp =>
      match mode with
      | Capture =>
          match Py.text (stdout cp), Py.text (stderr cp) with
          | Some out, Some err => Ret (mkCompleted (returncode cp) out err)
          | _, _ => Raise UnicodeDecodeError
          end
      | _ => Ret (mkCompleted (returncode cp) EmptyString EmptyString)
      end
  | NotFound => Raise FileNotFoundError
  end.

(** The standard output of a finished process as [capture_output=True,
    text=True] hands it to the script: both streams must be text. *)
Definition captured {PY : Py.Interpreter} (cp : CompletedProcess) : option string :=
  match Py.text (stdout cp), Py.text (stderr cp) with
  | Some out, Some _ => Some out
  | _, _ => None
  end.

Definition finished (l : Launch) : Result unit :=
  match l with
  | Launched _ => Ret tt
  | NotFound => Raise FileNotFoundError
  end.

(** The lines of the numbered menu (lines 159-160). *)
Fixpoint menu_lines (start : nat) (sessions : list string) : list Out :=
  match sessions with
  | [] => []
  | session :: rest =>
      Printed (Py.str start ++ ") " ++ session) :: menu_lines (S start) rest
  end.

Definition menu_header : string :=
  String "010" "Mehrere Sessions verfügbar. Mit welcher Session möchten Sie sich verbinden?".

(** The menu entries read off the output of the second listing. *)
Definition menu_of (names : string) : list string :=
  Py.split "010" (Py.strip names).



(** The world after one external command. *)
Definition after_run {Ext : Type} (exec : list string -> Ext -> Launch * Ext)
  (argv : list string) (mode : StdoutMode) (w : World Ext) : World Ext :=
  mkWorld (snd (exec argv (ext w))) (environ w) (stdin w)
    (term w ++ shown mode (fst (exec argv (ext w)))) (trace w ++ [argv]).

(** A computation that never ends with [SystemExit]. *)
Definition no_exit {Ext A : Type} (m : M Ext A) : Prop :=
  forall w code, fst (m w) <> Raise (SystemExit code).

(** A computation that leaves the multiplexer as it found it. *)
Definition keeps {A : Type} (m : M Tmux.State A) : Prop :=
  forall w, ext (snd (m w)) = ext w.

(** A computation under which the session table only grows. *)
Definition grows {A : Type} (m : M Tmux.State A) : Prop :=
  forall w, Tmux.extends (ext w) (ext (snd (m w))).

(** Sample configuration for the concrete runs. *)
Definition SSH_KEY_sample : string := "/home/admin/.ssh/id_ed25519".

Definition two_servers : list string := ["a=x"; "b=y"].

(** The world a run reaches after the set-up, started without sessions. *)
Definition ready (servers lines : list string) : World Tmux.State :=
  snd (main_setup (PY := sample_interpreter) Tmux.exec SSH_KEY_sample servers
         (Tmux.world Tmux.empty Tmux.no_env lines)).

(** What [list-sessions] prints in a world. *)
Definition listing (format : option string) (w : World Tmux.State) : string :=
  Tmux.output (Tmux.ListSessions format) (Tmux.table (ext w)).




(** Lines, each closed by a line break, and lines joined by line breaks. *)
Fixpoint unlines (ls : list string) : string :=
  match ls with
  | [] => EmptyString
  | l :: rest => l ++ Tmux.newline ++ unlines rest
  end.

Fixpoint join_lines (ls : list string) : string :=
  match ls with
  | [] => EmptyString
  | [l] => l
  | l :: rest => l ++ Tmux.newline ++ join_lines rest
  end.

(** A line of the default listing without its line break. *)
Definition session_body (s : Tmux.Session) : string :=
  Tmux.sname s ++ ": " ++ Py.str (length (Tmux.windows s)) ++ " windows".


(** A system on which no command can be started. *)
Definition absent (argv : list string) (e : unit) : Launch * unit := (NotFound, e).

(** An ASCII character that is not white space. It stands for itself in
    UTF-8 and is no part of a white space character. *)
Definition solid (a : ascii) : bool :=
  (nat_of_ascii a <? 128)%nat && negb (Py.space1 a).

Fixpoint all_solid (s : string) : bool :=
  match s with
  | EmptyString => true
  | String a r => solid a && all_solid r
  end.

(** A plain name: not empty, made of ASCII characters other than white
    space. *)
Definition plain (n : string) : bool := negb (n =? EmptyString) && all_solid n.

(** A string whose last character is an ASCII character other than white
    space. *)
Definition ends_solid (s : string) : Prop :=
  exists front d, s = front ++ String d EmptyString /\ solid d = true.

(** A string without line end: neither a line feed nor a carriage return,
    which [text=True] turns into a line feed. *)
Definition one_line (n : string) : bool :=
  negb (Py.contains "010" n) && negb (Py.contains "013" n).

(** * Facts about the string primitives *)

Lemma split_cons (c : ascii) (s : string) :
  Py.split c s =
    before_first c s ::
    match after_first c s with Some r => Py.split c r | None => [] end.
Proof.
  induction s as [|a s IH]; simpl; [reflexivity|].
  destruct (Ascii.eqb a c); [reflexivity|].
  rewrite IH. reflexivity.
Qed.

Lemma split_first (c : ascii) (s : string) :
  nth_error (Py.split c s) 0 = Some (before_first c s).
Proof. rewrite split_cons. reflexivity. Qed.

Lemma split_second (c : ascii) (s : string) :
  nth_error (Py.split c s) 1 = option_map (before_first c) (after_first c s).
Proof.
  rewrite split_cons. simpl.
  destruct (after_first c s) as [r|]; [|reflexivity].
  rewrite split_cons. reflexivity.
Qed.

Lemma count_nonneg (c : ascii) (s : string) : (0 <= Py.count c s)%Z.
Proof.
  induction s as [|a s IH]; simpl; [lia|].
  destruct (Ascii.eqb a c); lia.
Qed.

Lemma before_first_app (c : ascii) (n r : string) :
  Py.contains c n = false ->
  before_first c (n ++ String c r) = n.
Proof.
  induction n as [|a n IH]; simpl.
  - rewrite Ascii.eqb_refl. reflexivity.
  - intros H. apply orb_false_iff in H. destruct H as [Ha Hn].
    rewrite Ha, IH by assumption. reflexivity.
Qed.

Lemma after_first_app (c : ascii) (n r : string) :
  Py.contains c n = false ->
  after_first c (n ++ String c r) = Some r.
Proof.
  induction n as [|a n IH]; simpl.
  - rewrite Ascii.eqb_refl. reflexivity.
  - intros H. apply orb_false_iff in H. destruct H as [Ha Hn].
    rewrite Ha. auto.
Qed.

Lemma before_first_none (c : ascii) (n : string) :
  Py.contains c n = false -> before_first c n = n.
Proof.
  induction n as [|a n IH]; simpl; [reflexivity|].
  intros H. apply orb_false_iff in H. destruct H as [Ha Hn].
  rewrite Ha, IH by assumption. reflexivity.
Qed.

Lemma after_first_none (c : ascii) (n : string) :
  Py.contains c n = false -> after_first c n = None.
Proof.
  induction n as [|a n IH]; simpl; [reflexivity|].
  intros H. apply orb_false_iff in H. destruct H as [Ha Hn].
  rewrite Ha. auto.
Qed.


Lemma append_assoc (a b c : string) : (a ++ b) ++ c = a ++ b ++ c.
Proof. induction a as [|x a IH]; simpl; [reflexivity|]. rewrite IH. reflexivity. Qed.

Lemma count_app (c : ascii) (s t : string) :
  Py.count c (s ++ t) = (Py.count c s + Py.count c t)%Z.
Proof. induction s as [|a s IH]; simpl; [reflexivity|]. rewrite IH. lia. Qed.

Lemma count_contains (c : ascii) (s : string) :
  Py.contains c s = false -> Py.count c s = 0%Z.
Proof.
  induction s as [|a s IH]; simpl; [reflexivity|].
  intros H. apply orb_false_iff in H. destruct H as [Ha Hs].
  rewrite Ha, IH by exact Hs. reflexivity.
Qed.

Lemma count_uint (d : Decimal.uint) :
  Py.count "010" (NilEmpty.string_of_uint d) = 0%Z.
Proof. induction d; simpl; auto. Qed.

Lemma append_empty_r (s : string) : s ++ EmptyString = s.
Proof. induction s as [|c s IH]; simpl; [reflexivity|]. rewrite IH. reflexivity. Qed.

Lemma concat_lines {A : Type} (f : A -> string) (xs : list A) :
  String.concat EmptyString (map (fun x => f x ++ Tmux.newline) xs) = unlines (map f xs).
Proof.
  induction xs as [|x xs IH]; [reflexivity|].
  cbn [map unlines]. rewrite <- IH.
  destruct xs as [|y ys].
  - cbn [map String.concat]. rewrite append_empty_r. reflexivity.
  - cbn [map String.concat]. cbn [append]. rewrite append_assoc. reflexivity.
Qed.

Lemma unlines_join (l : string) (ls : list string) :
  unlines (l :: ls) = join_lines (l :: ls) ++ Tmux.newline.
Proof.
  revert l. induction ls as [|m ls IH]; intros l.
  - cbn [unlines join_lines]. rewrite append_empty_r. reflexivity.
  - change (unlines (l :: m :: ls)) with (l ++ Tmux.newline ++ unlines (m :: ls)).
    change (join_lines (l :: m :: ls)) with (l ++ Tmux.newline ++ join_lines (m :: ls)).
    rewrite IH, !append_assoc. reflexivity.
Qed.

Lemma split_line (c : ascii) (n r : string) :
  Py.contains c n = false -> Py.split c (n ++ String c r) = n :: Py.split c r.
Proof.
  intros H. rewrite split_cons, before_first_app, after_first_app by exact H. reflexivity.
Qed.

Lemma split_whole (c : ascii) (n : string) :
  Py.contains c n = false -> Py.split c n = [n].
Proof.
  intros H. rewrite split_cons, before_first_none, after_first_none by exact H. reflexivity.
Qed.

Lemma split_join (ls : list string) :
  ls <> [] -> Forall (fun l => Py.contains "010" l = false) ls ->
  Py.split "010" (join_lines ls) = ls.
Proof.
  induction ls as [|l ls IH]; [contradiction|]. intros _ H.
  inversion H as [|? ? H1 H2]; subst. destruct ls as [|m ls].
  - apply split_whole, H1.
  - change (join_lines (l :: m :: ls)) with (l ++ String "010" (join_lines (m :: ls))).
    rewrite split_line by exact H1. f_equal. apply IH; [discriminate|exact H2].
Qed.

Lemma count_join (ls : list string) :
  ls <> [] -> Forall (fun l => Py.count "010" l = 0%Z) ls ->
  Py.count "010" (join_lines ls) = (Z.of_nat (length ls) - 1)%Z.
Proof.
  induction ls as [|l ls IH]; [contradiction|]. intros _ H.
  inversion H as [|? ? H1 H2]; subst. destruct ls as [|m ls].
  - simpl. exact H1.
  - change (join_lines (l :: m :: ls)) with (l ++ String "010" (join_lines (m :: ls))).
    rewrite count_app. cbn [Py.count]. rewrite Ascii.eqb_refl, H1, IH by (discriminate || exact H2).
    cbn [length]. lia.
Qed.

Lemma Forall_map_intro {A B : Type} (P : B -> Prop) (f : A -> B) (l : list A) :
  Forall (fun x => P (f x)) l -> Forall P (map f l).
Proof. induction 1; simpl; constructor; assumption. Qed.

(** ** White space at the ends of a text *)

Lemma solid_space1 (a : ascii) : solid a = true -> Py.space1 a = false.
Proof.
  unfold solid. intros H. apply andb_true_iff in H. destruct H as [_ H].
  apply negb_true_iff in H. exact H.
Qed.

Lemma solid_low (a : ascii) : solid a = true -> (nat_of_ascii a < 128)%nat.
Proof.
  unfold solid. intros H. apply andb_true_iff in H. destruct H as [H _].
  apply Nat.ltb_lt in H. exact H.
Qed.

Lemma space2_low_l (a b : ascii) : (nat_of_ascii a < 128)%nat -> Py.space2 a b = false.
Proof.
  intros H. unfold Py.space2. cbv zeta.
  replace (nat_of_ascii a =? 194)%nat with false; [reflexivity|].
  symmetry. apply Nat.eqb_neq. lia.
Qed.

Lemma space2_low_r (a b : ascii) : (nat_of_ascii b < 128)%nat -> Py.space2 a b = false.
Proof.
  intros H. unfold Py.space2. cbv zeta.
  replace (nat_of_ascii b =? 133)%nat with false by (symmetry; apply Nat.eqb_neq; lia).
  replace (nat_of_ascii b =? 160)%nat with false by (symmetry; apply Nat.eqb_neq; lia).
  apply andb_false_r.
Qed.

Lemma space3_low_l (a b c : ascii) : (nat_of_ascii a < 128)%nat -> Py.space3 a b c = false.
Proof.
  intros H. unfold Py.space3. cbv zeta.
  replace (nat_of_ascii a =? 225)%nat with false by (symmetry; apply Nat.eqb_neq; lia).
  replace (nat_of_ascii a =? 226)%nat with false by (symmetry; apply Nat.eqb_neq; lia).
  replace (nat_of_ascii a =? 227)%nat with false by (symmetry; apply Nat.eqb_neq; lia).
  reflexivity.
Qed.

Lemma space3_low_m (a b c : ascii) : (nat_of_ascii b < 128)%nat -> Py.space3 a b c = false.
Proof.
  intros H. unfold Py.space3. cbv zeta.
  replace (nat_of_ascii b =? 154)%nat with false by (symmetry; apply Nat.eqb_neq; lia).
  replace (nat_of_ascii b =? 128)%nat with false by (symmetry; apply Nat.eqb_neq; lia).
  replace (nat_of_ascii b =? 129)%nat with false by (symmetry; apply Nat.eqb_neq; lia).
  rewrite !andb_false_r. reflexivity.
Qed.

Lemma space3_low_r (a b c : ascii) : (nat_of_ascii c < 128)%nat -> Py.space3 a b c = false.
Proof.
  intros H. unfold Py.space3. cbv zeta.
  replace (nat_of_ascii c =? 128)%nat with false by (symmetry; apply Nat.eqb_neq; lia).
  replace (128 <=? nat_of_ascii c)%nat with false by (symmetry; apply Nat.leb_gt; lia).
  replace (nat_of_ascii c =? 168)%nat with false by (symmetry; apply Nat.eqb_neq; lia).
  replace (nat_of_ascii c =? 169)%nat with false by (symmetry; apply Nat.eqb_neq; lia).
  replace (nat_of_ascii c =? 175)%nat with false by (symmetry; apply Nat.eqb_neq; lia).
  replace (nat_of_ascii c =? 159)%nat with false by (symmetry; apply Nat.eqb_neq; lia).
  rewrite !andb_false_r. reflexivity.
Qed.

(** A solid character at the front stays. *)
Lemma lstrip_solid (c : ascii) (y : string) :
  solid c = true -> Py.lstrip (String c y) = String c y.
Proof.
  intros H. pose proof (solid_low c H) as Hl. cbn [Py.lstrip].
  rewrite (solid_space1 c H).
  destruct y as [|b y]; [reflexivity|].
  rewrite space2_low_l by exact Hl.
  destruct y as [|d y]; [reflexivity|].
  rewrite space3_low_l by exact Hl. reflexivity.
Qed.

(** In front of a solid character [lstrip] leaves an end piece of what
    stands there, and all that follows. *)
Lemma lstrip_before_solid (c : ascii) (x : string) :
  solid c = true ->
  exists p z, x = p ++ z /\ forall y, Py.lstrip (x ++ String c y) = z ++ String c y.
Proof.
  intros H. pose proof (solid_low c H) as Hl.
  assert (G : forall n x, String.length x <= n ->
            exists p z, x = p ++ z /\ forall y, Py.lstrip (x ++ String c y) = z ++ String c y).
  { clear x. induction n as [|n IH]; intros x Hn.
    - destruct x; [|simpl in Hn; lia].
      exists EmptyString, EmptyString. split; [reflexivity|].
      intros y. apply lstrip_solid, H.
    - destruct x as [|a x1].
      { exists EmptyString, EmptyString. split; [reflexivity|].
        intros y. apply lstrip_solid, H. }
      cbn [String.length] in Hn.
      destruct (Py.space1 a) eqn:E1.
      { destruct (IH x1 ltac:(lia)) as (p & z & Hx & Hz).
        exists (String a p), z. split; [simpl; rewrite <- Hx; reflexivity|].
        intros y. cbn [append Py.lstrip]. rewrite E1. apply Hz. }
      destruct x1 as [|b x2].
      { exists EmptyString, (String a EmptyString). split; [reflexivity|].
        intros y. cbn [append Py.lstrip]. rewrite E1.
        rewrite space2_low_r by exact Hl.
        destruct y as [|d y]; [reflexivity|].
        rewrite space3_low_m by exact Hl. reflexivity. }
      cbn [String.length] in Hn.
      destruct (Py.space2 a b) eqn:E2.
      { destruct (IH x2 ltac:(lia)) as (p & z & Hx & Hz).
        exists (String a (String b p)), z. split; [simpl; rewrite <- Hx; reflexivity|].
        intros y. cbn [append Py.lstrip]. rewrite E1, E2. apply Hz. }
      destruct x2 as [|d x3].
      { exists EmptyString, (String a (String b EmptyString)). split; [reflexivity|].
        intros y. cbn [append Py.lstrip]. rewrite E1, E2.
        rewrite space3_low_r by exact Hl. reflexivity. }
      cbn [String.length] in Hn.
      destruct (Py.space3 a b d) eqn:E3.
      { destruct (IH x3 ltac:(lia)) as (p & z & Hx & Hz).
        exists (String a (String b (String d p))), z.
        split; [simpl; rewrite <- Hx; reflexivity|].
        intros y. cbn [append Py.lstrip]. rewrite E1, E2, E3. apply Hz. }
      exists EmptyString, (String a (String b (String d x3))). split; [reflexivity|].
      intros y. cbn [append Py.lstrip]. rewrite E1, E2, E3. reflexivity. }
  apply (G (String.length x)). lia.
Qed.

Lemma rstrip_before_solid (c : ascii) (x y : string) :
  solid c = true -> Py.rstrip (x ++ String c y) = x ++ String c (Py.rstrip y).
Proof.
  intros H. induction x as [|a x IH].
  - cbn [append]. change (Py.rstrip (String c y))
      with (match Py.lstrip (String c y) with
            | EmptyString => EmptyString
            | String _ _ => String c (Py.rstrip y)
            end).
    rewrite lstrip_solid by exact H. reflexivity.
  - change (Py.rstrip (String a x ++ String c y))
      with (match Py.lstrip (String a x ++ String c y) with
            | EmptyString => EmptyString
            | String _ _ => String a (Py.rstrip (x ++ String c y))
            end).
    destruct (lstrip_before_solid c (String a x) H) as (p & z & _ & Hz).
    rewrite Hz, IH. destruct z; reflexivity.
Qed.

Lemma rstrip_line (j : string) :
  ends_solid j -> Py.rstrip (j ++ Tmux.newline) = j.
Proof.
  intros (front & d & -> & H). rewrite append_assoc. cbn [append].
  rewrite rstrip_before_solid by exact H. reflexivity.
Qed.

Lemma ends_solid_app (a b : string) : ends_solid b -> ends_solid (a ++ b).
Proof.
  intros (front & d & -> & H). exists (a ++ front), d.
  split; [rewrite append_assoc; reflexivity|exact H].
Qed.

Lemma join_ends_solid (ls : list string) :
  ls <> [] -> Forall ends_solid ls -> ends_solid (join_lines ls).
Proof.
  induction ls as [|l ls IH]; [contradiction|]. intros _ H.
  inversion H as [|? ? H1 H2]; subst. destruct ls as [|m ls]; [exact H1|].
  change (join_lines (l :: m :: ls)) with (l ++ Tmux.newline ++ join_lines (m :: ls)).
  apply ends_solid_app, ends_solid_app, IH; [discriminate|exact H2].
Qed.

Lemma all_solid_newline (s : string) : all_solid s = true -> Py.contains "010" s = false.
Proof.
  induction s as [|c s IH]; simpl; [reflexivity|].
  intros H. apply andb_true_iff in H. destruct H as [Hc Hs].
  rewrite IH by exact Hs. rewrite orb_false_r.
  destruct (Ascii.eqb_spec c "010"); [subst; discriminate Hc|reflexivity].
Qed.

Lemma all_solid_ends (s : string) :
  s <> EmptyString -> all_solid s = true -> ends_solid s.
Proof.
  induction s as [|c s IH]; [contradiction|]. intros _ H.
  simpl in H. apply andb_true_iff in H. destruct H as [Hc Hs].
  destruct s as [|d s].
  - exists EmptyString, c. split; [reflexivity|exact Hc].
  - apply (ends_solid_app (String c EmptyString)). apply IH; [discriminate|exact Hs].
Qed.

Lemma plain_facts (n : string) :
  plain n = true ->
  ends_solid n /\ Py.contains "010" n = false /\
  exists c r, n = String c r /\ solid c = true.
Proof.
  unfold plain. intros H. apply andb_true_iff in H. destruct H as [Hn Hs].
  assert (Hne : n <> EmptyString) by (intros ->; discriminate Hn).
  split; [apply all_solid_ends; assumption|].
  split; [apply all_solid_newline, Hs|].
  destruct n as [|c r]; [contradiction|]. exists c, r. split; [reflexivity|].
  simpl in Hs. apply andb_true_iff in Hs. apply Hs.
Qed.

(** Plain names, one per line: stripping and splitting gives them back. *)
Lemma names_split (names : list string) :
  names <> [] -> Forall (fun n => plain n = true) names ->
  Py.split "010" (Py.strip (unlines names)) = names.
Proof.
  intros Hn Hp. destruct names as [|n names]; [contradiction|].
  rewrite unlines_join. unfold Py.strip.
  assert (He : ends_solid (join_lines (n :: names))).
  { apply join_ends_solid; [discriminate|].
    eapply Forall_impl; [|exact Hp]. intros x Hx. apply (plain_facts _ Hx). }
  assert (Hl : Py.lstrip (join_lines (n :: names) ++ Tmux.newline) =
               join_lines (n :: names) ++ Tmux.newline).
  { inversion Hp as [|? ? H1 _]; subst.
    destruct (plain_facts _ H1) as (_ & _ & c & r & -> & Hc).
    destruct names as [|m names]; cbn [join_lines append]; apply lstrip_solid, Hc. }
  rewrite Hl, rstrip_line by exact He.
  apply split_join; [discriminate|].
  eapply Forall_impl; [|exact Hp]. intros x Hx. apply (plain_facts _ Hx).
Qed.

Lemma universal_newlines_same (s : string) :
  Py.contains "013" s = false -> Py.universal_newlines s = s.
Proof.
  induction s as [|a s IH]; [reflexivity|].
  cbn [Py.contains Py.universal_newlines]. intros H.
  apply orb_false_iff in H. destruct H as [Ha Hs].
  rewrite Ha, IH by exact Hs. reflexivity.
Qed.

Lemma contains_app (c : ascii) (s t : string) :
  Py.contains c (s ++ t) = Py.contains c s || Py.contains c t.
Proof.
  induction s as [|a s IH]; [reflexivity|].
  cbn [append Py.contains]. rewrite IH, orb_assoc. reflexivity.
Qed.

Lemma contains_uint (c : ascii) (d : Decimal.uint) :
  (nat_of_ascii c < 48)%nat -> Py.contains c (NilEmpty.string_of_uint d) = false.
Proof.
  intros H. induction d; cbn [NilEmpty.string_of_uint Py.contains]; [reflexivity|..];
    rewrite IHd, orb_false_r; apply Ascii.eqb_neq; intros <-; vm_compute in H; lia.
Qed.

(** * Properties that hold whatever the external tool does *)

Section AnyTool.

Context {PY : Py.Interpreter}.
Variable Ext : Type.
Variable exec : list string -> Ext -> Launch * Ext.
Variable SSH_KEY : string.
Variable SERVERS : list string.

Lemma run_eq (argv : list string) (mode : StdoutMode) (w : World Ext) :
  subprocess_run exec argv mode w =
    (completed mode (fst (exec argv (ext w))), after_run exec argv mode w).
Proof.
  unfold subprocess_run, after_run, completed.
  destruct (exec argv (ext w)) as [[cp|] e]; cbn [fst snd shown];
    [|rewrite app_nil_r; reflexivity].
  destruct mode; cbn [shown]; rewrite ?app_nil_r; try reflexivity.
  destruct (Py.text (stdout cp)); [destruct (Py.text (stderr cp))|]; reflexivity.
Qed.

(** A captured run whose output is text. *)
Lemma run_capture (argv : list string) (w : World Ext) (cp : CompletedProcess) (e : Ext)
  (out : string) :
  exec argv (ext w) = (Launched cp, e) -> captured cp = Some out ->
  exists err,
    subprocess_run exec argv Capture w =
      (Ret (mkCompleted (returncode cp) out err),
       mkWorld e (environ w) (stdin w) (term w) (trace w ++ [argv])).
Proof.
  intros H Hc. rewrite run_eq. unfold after_run, completed, captured in *. rewrite H.
  cbn [fst snd shown]. rewrite app_nil_r.
  destruct (Py.text (stdout cp)) as [o|]; [|discriminate].
  destruct (Py.text (stderr cp)) as [err|]; [|discriminate].
  injection Hc as <-. exists err. reflexivity.
Qed.

(** A process that wrote nothing: no bytes are the empty text. *)
Lemma captured_silent (code : Z) :
  captured (mkCompleted code EmptyString EmptyString) = Some EmptyString.
Proof.
  unfold captured, Py.text. cbn [stdout stderr]. rewrite Py.decode_empty. reflexivity.
Qed.

(** A process that wrote nothing on its error output. *)
Lemma captured_out (code : Z) (out : string) :
  captured (mkCompleted code out EmptyString) = Py.text out.
Proof.
  unfold captured. cbn [stdout stderr]. unfold Py.text at 2.
  rewrite Py.decode_empty. cbn [option_map]. destruct (Py.text out); reflexivity.
Qed.

(** A captured run whose output is not text. *)
Lemma run_undecodable (argv : list string) (w : World Ext) (cp : CompletedProcess) (e : Ext) :
  exec argv (ext w) = (Launched cp, e) -> captured cp = None ->
  subprocess_run exec argv Capture w =
    (Raise UnicodeDecodeError,
     mkWorld e (environ w) (stdin w) (term w) (trace w ++ [argv])).
Proof.
  intros H Hc. rewrite run_eq. unfold after_run, completed, captured in *. rewrite H.
  cbn [fst snd shown]. rewrite app_nil_r.
  destruct (Py.text (stdout cp)) as [o|]; [|reflexivity].
  destruct (Py.text (stderr cp)) as [err|]; [discriminate|reflexivity].
Qed.

Lemma bind_ret {A B : Type} (m : M Ext A) (k : A -> M Ext B) (w w' : World Ext) (a : A) :
  m w = (Ret a, w') -> bind m k w = k a w'.
Proof. intros H. unfold bind. rewrite H. reflexivity. Qed.

Lemma check_session_eq (n : string) (w : World Ext) :
  check_session exec n w =
    (match fst (exec (has_session_argv n) (ext w)) with
     | Launched cp => Ret (returncode cp =? 0)%Z
     | NotFound => Raise FileNotFoundError
     end,
     after_run exec (has_session_argv n) Inherit w).
Proof.
  unfold check_session, bind. rewrite run_eq. fold (has_session_argv n).
  destruct (fst (exec (has_session_argv n) (ext w))); reflexivity.
Qed.

Lemma attach_session_eq (n : string) (w : World Ext) :
  attach_session exec n w =
    (finished (fst (exec (attach_argv (environ w) n) (ext w))),
     mkWorld (snd (exec (attach_argv (environ w) n) (ext w))) (environ w) (stdin w)
       (term w ++ Printed (attach_message (environ w) n)
               :: shown Inherit (fst (exec (attach_argv (environ w) n) (ext w))))
       (trace w ++ [attach_argv (environ w) n])).
Proof.
  unfold attach_session, attach_argv, attach_message, bind, environ_get.
  destruct (truthy (environ w "TMUX")); cbn -[String.append];
  rewrite run_eq; unfold after_run; cbn -[String.append];
  destruct (exec _ (ext w)) as [[cp|] e]; cbn -[String.append];
  rewrite <- ?app_assoc; reflexivity.
Qed.

Lemma print_menu_eq (sessions : list string) (start : nat) (w : World Ext) :
  print_menu start sessions w =
    (Ret tt, mkWorld (ext w) (environ w) (stdin w)
               (term w ++ menu_lines start sessions) (trace w)).
Proof.
  revert start w. induction sessions as [|s rest IH]; intros start w.
  - simpl. unfold ret. rewrite app_nil_r. destruct w; reflexivity.
  - cbn -[String.append Py.str]. unfold bind, print, emit.
    rewrite IH. cbn -[String.append Py.str]. rewrite <- app_assoc. reflexivity.
Qed.

Lemma main_after_setup (w0 w1 : World Ext) :
  main_setup exec SSH_KEY SERVERS w0 = (Ret tt, w1) ->
  main exec SSH_KEY SERVERS w0 = main_select exec SERVERS w1.
Proof. intros H. unfold main, bind. rewrite H. reflexivity. Qed.

(** The branch taken when the listing shows at most one line. *)
Lemma select_single (w : World Ext) (cp : CompletedProcess) (e : Ext)
  (listing first : string) (rest : list string) :
  SERVERS = first :: rest ->
  exec list_argv (ext w) = (Launched cp, e) ->
  captured cp = Some listing ->
  (session_count listing <= 1)%Z ->
  main_select exec SERVERS w =
    attach_session exec (entry_name first)
      (mkWorld e (environ w) (stdin w) (term w) (trace w ++ [list_argv])).
Proof.
  intros HS Hls Ht Hc. unfold main_select. unfold bind at 1. fold list_argv.
  destruct (run_capture _ _ _ _ _ Hls Ht) as [err E]. rewrite E. cbn [stdout].
  destruct (Z.gtb_spec (session_count listing) 1) as [Hgt|_]; [lia|].
  rewrite HS. cbn [index nth_error]. unfold bind at 1. cbn [ret].
  unfold index. rewrite split_first. unfold bind, ret. reflexivity.
Qed.

(** The branch taken when the listing shows several lines, up to the point
    where the answer has been read. *)
Lemma select_menu (w : World Ext) (cp1 cp2 : CompletedProcess) (e1 e2 : Ext)
  (listing names line : string) (rest : list string) :
  exec list_argv (ext w) = (Launched cp1, e1) ->
  captured cp1 = Some listing ->
  (1 < session_count listing)%Z ->
  exec names_argv e1 = (Launched cp2, e2) ->
  captured cp2 = Some names ->
  stdin w = line :: rest ->
  let sessions := menu_of names in
  let asked :=
    mkWorld e2 (environ w) rest
      (term w ++ Printed menu_header :: menu_lines 1 sessions ++ [Prompt "Auswahl: "])
      (trace w ++ [list_argv; names_argv]) in
  main_select exec SERVERS w =
    match Py.int line with
    | None => (Raise ValueError, asked)
    | Some number =>
        if ((0 <=? number - 1) && (number - 1 <? Z.of_nat (length sessions)))%Z
        then match nth_error sessions (Z.to_nat (number - 1)) with
             | Some session => attach_session exec session asked
             | None => (Raise IndexError, asked)
             end
        else (Ret tt, asked)
    end.
Proof.
  intros Hls Ht1 Hc Hnm Ht2 Hin sessions asked. unfold main_select. unfold bind at 1.
  fold list_argv names_argv.
  destruct (run_capture _ _ _ _ _ Hls Ht1) as [err1 E1]. rewrite E1. cbn [stdout].
  destruct (Z.gtb_spec (session_count listing) 1) as [_|Hle]; [|lia].
  unfold bind at 1. unfold print at 1, emit. unfold bind at 1.
  cbn [ext environ stdin term trace].
  match goal with |- context [subprocess_run exec names_argv Capture ?w0] =>
    destruct (run_capture names_argv w0 cp2 e2 names Hnm Ht2) as [err2 E2] end.
  rewrite E2. cbn [ext environ stdin term trace stdout].
  fold (menu_of names). fold sessions.
  unfold bind at 1. rewrite print_menu_eq. cbn [ext environ stdin term trace].
  unfold bind at 1. unfold input. unfold bind at 1. unfold emit.
  cbn [ext environ stdin term trace]. rewrite Hin.
  fold menu_header.
  assert (Hw : mkWorld e2 (environ w) rest
                 (((term w ++ [Printed menu_header]) ++
                    menu_lines 1 sessions) ++ [Prompt "Auswahl: "])
                 ((trace w ++ [list_argv]) ++ [names_argv]) = asked).
  { unfold asked. f_equal.
    - rewrite <- !app_assoc. reflexivity.
    - rewrite <- app_assoc. reflexivity. }
  unfold bind at 1. unfold int_of.
  destruct (Py.int line) as [number|]; unfold ret, raise.
  - rewrite <- ?app_assoc in *. cbn [app] in *.
    destruct ((0 <=? number - 1)%Z && (number - 1 <? Z.of_nat (length sessions))%Z).
    + unfold bind, index. destruct (nth_error sessions (Z.to_nat (number - 1)));
        unfold ret, raise; rewrite ?app_nil_r in *; rewrite <- ?Hw; rewrite <- ?app_assoc; reflexivity.
    + rewrite ?app_nil_r in *. rewrite <- Hw. rewrite <- ?app_assoc. reflexivity.
  - rewrite ?app_nil_r in *. rewrite <- Hw. rewrite <- ?app_assoc. reflexivity.
Qed.

Lemma bind_run {B : Type} (argv : list string) (mode : StdoutMode)
  (k : CompletedProcess -> M Ext B) (w : World Ext) (cp : CompletedProcess) (e : Ext) :
  exec argv (ext w) = (Launched cp, e) ->
  mode <> Capture ->
  bind (subprocess_run exec argv mode) k w =
    k (mkCompleted (returncode cp) EmptyString EmptyString)
      (mkWorld e (environ w) (stdin w) (term w ++ shown mode (Launched cp))
         (trace w ++ [argv])).
Proof.
  intros H Hm. unfold bind. rewrite run_eq. unfold after_run. rewrite H.
  destruct mode; [reflexivity|reflexivity|contradiction].
Qed.

Lemma no_exit_ret {A : Type} (a : A) : no_exit (@ret Ext A a).
Proof. intros w code. discriminate. Qed.

Lemma no_exit_bind {A B : Type} (m : M Ext A) (k : A -> M Ext B) :
  no_exit m -> (forall a, no_exit (k a)) -> no_exit (bind m k).
Proof.
  intros Hm Hk w code. unfold bind. specialize (Hm w code).
  destruct (m w) as [[a|e] w']; simpl in *; [apply Hk|].
  intros Heq. apply Hm. injection Heq as ->. reflexivity.
Qed.

Lemma no_exit_emit (o : Out) : no_exit (@emit Ext o).
Proof. intros w code. discriminate. Qed.

Lemma no_exit_run (argv : list string) (mode : StdoutMode) :
  no_exit (subprocess_run exec argv mode).
Proof.
  intros w code. rewrite run_eq. cbn [fst]. unfold completed.
  destruct (fst (exec argv (ext w))) as [cp|]; [|discriminate].
  destruct mode; try discriminate.
  destruct (Py.text (stdout cp)); [destruct (Py.text (stderr cp))|]; discriminate.
Qed.

Lemma no_exit_index {A : Type} (xs : list A) (i : nat) : no_exit (@index Ext A xs i).
Proof. intros w code. unfold index. destruct (nth_error xs i); discriminate. Qed.

Lemma no_exit_int_of (s : string) : no_exit (int_of (Ext := Ext) s).
Proof. intros w code. unfold int_of. destruct (Py.int s); discriminate. Qed.

Lemma no_exit_input (p : string) : no_exit (@input Ext p).
Proof.
  intros w code. unfold input, bind, emit. simpl. destruct (stdin w); discriminate.
Qed.

Lemma no_exit_environ_get (k : string) : no_exit (@environ_get Ext k).
Proof. intros w code. discriminate. Qed.

Lemma no_exit_print_menu (l : list string) (i : nat) : no_exit (@print_menu Ext i l).
Proof. intros w code. rewrite print_menu_eq. discriminate. Qed.

Lemma no_exit_for_each {A : Type} (xs : list A) (body : A -> M Ext unit) :
  (forall x, no_exit (body x)) -> no_exit (for_each xs body).
Proof.
  intros H. induction xs as [|x xs IH]; simpl.
  - apply no_exit_ret.
  - apply no_exit_bind; auto.
Qed.

Ltac no_exit_steps :=
  repeat first
    [ apply no_exit_ret | apply no_exit_emit | apply no_exit_index
    | apply no_exit_run | apply no_exit_int_of | apply no_exit_input
    | apply no_exit_environ_get | apply no_exit_print_menu
    | apply no_exit_for_each; intros ?
    | apply no_exit_bind; [|intros ?]
    | match goal with |- no_exit (if ?b then _ else _) => destruct b end ].

Lemma no_exit_after_probe :
  no_exit (bind (for_each SERVERS (setup_entry exec SSH_KEY))
             (fun _ => bind (print (String "010" "Status der Sessions:"))
                (fun _ => bind (list_sessions exec SERVERS)
                   (fun _ => main_select exec SERVERS)))).
Proof.
  unfold setup_entry, create_server_session, list_sessions, show_windows,
    main_select, attach_session, check_session, print.
  no_exit_steps.
Qed.

Lemma main_assoc (w : World Ext) :
  main exec SSH_KEY SERVERS w =
    bind (require_tmux exec)
      (fun _ => bind (for_each SERVERS (setup_entry exec SSH_KEY))
         (fun _ => bind (print (String "010" "Status der Sessions:"))
            (fun _ => bind (list_sessions exec SERVERS)
               (fun _ => main_select exec SERVERS)))) w.
Proof.
  unfold main, main_setup, bind.
  destruct (require_tmux exec w) as [[a|e] w1]; [|reflexivity].
  destruct (for_each SERVERS (setup_entry exec SSH_KEY) w1) as [[b|e] w2]; [|reflexivity].
  destruct (print _ w2) as [[c|e] w3]; reflexivity.
Qed.


Lemma bind_inv {A B : Type} (m : M Ext A) (k : A -> M Ext B) (w w1 : World Ext) (b : B) :
  bind m k w = (Ret b, w1) ->
  exists a w', m w = (Ret a, w') /\ k a w' = (Ret b, w1).
Proof.
  unfold bind. destruct (m w) as [[a|e] w']; [|discriminate].
  intros H. exists a, w'. split; [reflexivity|exact H].
Qed.



Lemma for_each_app {A : Type} (xs ys : list A) (body : A -> M Ext unit) (w : World Ext) :
  for_each (xs ++ ys) body w = bind (for_each xs body) (fun _ => for_each ys body) w.
Proof.
  revert w. induction xs as [|x xs IH]; intros w; simpl.
  - reflexivity.
  - unfold bind in *. destruct (body x w) as [[u|e] w']; [apply IH|reflexivity].
Qed.

Lemma require_tmux_passes (w : World Ext) (cp : CompletedProcess) (e : Ext) :
  exec probe_argv (ext w) = (Launched cp, e) -> returncode cp = 0%Z ->
  require_tmux exec w =
    (Ret tt, mkWorld e (environ w) (stdin w) (term w) (trace w ++ [probe_argv])).
Proof.
  intros H Hrc. unfold require_tmux. fold probe_argv.
  rewrite bind_run with (1 := H) by discriminate. cbn [returncode shown].
  rewrite Hrc. cbn [Z.eqb negb ret]. rewrite app_nil_r. reflexivity.
Qed.

Lemma setup_entry_malformed (entry : string) (w : World Ext) :
  Py.contains "=" entry = false ->
  setup_entry exec SSH_KEY entry w = (Raise IndexError, w).
Proof.
  intros H. unfold setup_entry, index. rewrite split_first, split_second.
  rewrite after_first_none by exact H. reflexivity.
Qed.

(** The several-lines branch when standard input is at its end. *)
Lemma select_menu_eof (w : World Ext) (cp1 cp2 : CompletedProcess) (e1 e2 : Ext)
  (listing names : string) :
  exec list_argv (ext w) = (Launched cp1, e1) ->
  captured cp1 = Some listing ->
  (1 < session_count listing)%Z ->
  exec names_argv e1 = (Launched cp2, e2) ->
  captured cp2 = Some names ->
  stdin w = [] ->
  main_select exec SERVERS w =
    (Raise EOFError,
     mkWorld e2 (environ w) []
       (term w ++ Printed menu_header
               :: menu_lines 1 (menu_of names) ++ [Prompt "Auswahl: "])
       (trace w ++ [list_argv; names_argv])).
Proof.
  intros Hls Ht1 Hc Hnm Ht2 Hin. unfold main_select. fold list_argv names_argv.
  unfold bind at 1.
  destruct (run_capture _ _ _ _ _ Hls Ht1) as [err1 E1]. rewrite E1. cbn [stdout].
  destruct (Z.gtb_spec (session_count listing) 1) as [_|Hle]; [|lia].
  unfold bind at 1. unfold print at 1, emit. cbn [ext environ stdin term trace].
  unfold bind at 1.
  match goal with |- context [subprocess_run exec names_argv Capture ?w0] =>
    destruct (run_capture names_argv w0 cp2 e2 names Hnm Ht2) as [err2 E2] end.
  rewrite E2. cbn [stdout ext environ stdin term trace].
  fold (menu_of names). unfold bind at 1. rewrite print_menu_eq.
  cbn [ext environ stdin term trace].
  unfold bind at 1. unfold input, bind, emit. cbn [ext environ stdin term trace].
  rewrite Hin. fold menu_header. f_equal. f_equal.
  - rewrite <- !app_assoc. reflexivity.
  - rewrite <- app_assoc. reflexivity.
Qed.

End AnyTool.

(** * Facts about the reference model *)

Module TmuxFacts.
Import Tmux.

Section OnAnyInterpreter.
Context {PY : Py.Interpreter}.

Lemma exec_tmux (args : list string) (st : State) :
  installed st = true ->
  exec ("tmux" :: args) st = (Launched (fst (run args st)), snd (run args st)).
Proof.
  intros H. unfold exec. change ("tmux" =? "tmux") with true. cbv iota.
  rewrite H. destruct (run args st); reflexivity.
Qed.

Lemma run_installed (args : list string) (st : State) :
  installed (snd (run args st)) = installed st.
Proof.
  unfold run. destruct (parse args) as [c|]; [|reflexivity].
  destruct (effect c (table st)); reflexivity.
Qed.

Lemma readonly_effect (c : Cmd) (tbl tbl' : list Session) :
  readonly c = true -> effect c tbl = Some tbl' -> tbl' = tbl.
Proof.
  destruct c; simpl; try discriminate; intros _.
  - destruct (has_session target tbl); congruence.
  - destruct tbl; congruence.
  - destruct (has_session target tbl); congruence.
  - destruct (has_session target tbl); congruence.
  - destruct (has_session target tbl); congruence.
Qed.

Lemma quiet_exec (argv : list string) (st : State) :
  quiet argv = true -> snd (exec argv st) = st.
Proof.
  unfold quiet, exec. destruct argv as [|prog args]; [reflexivity|].
  destruct (prog =? "tmux").
  - intros H. destruct (installed st); [|reflexivity].
    unfold run. destruct (parse args) as [c|]; [|reflexivity].
    destruct (effect c (table st)) as [tbl|] eqn:E; [|reflexivity].
    apply readonly_effect in E; [|exact H]. subst. destruct st; reflexivity.
  - intros _. destruct (prog =? "command"); [|reflexivity].
    destruct args as [|v [|name [|x args]]]; try reflexivity.
    destruct ((v =? "-v") && (name =? "tmux") && installed st); reflexivity.
Qed.

Lemma keeps_ret {A : Type} (a : A) : keeps (ret a).
Proof. intros w. reflexivity. Qed.

Lemma keeps_raise {A : Type} (e : Exn) : keeps (@raise State A e).
Proof. intros w. reflexivity. Qed.

Lemma keeps_bind {A B : Type} (m : M State A) (k : A -> M State B) :
  keeps m -> (forall a, keeps (k a)) -> keeps (bind m k).
Proof.
  intros Hm Hk w. unfold bind. specialize (Hm w).
  destruct (m w) as [[a|e] w']; simpl in *.
  - rewrite Hk. exact Hm.
  - exact Hm.
Qed.

Lemma keeps_emit (o : Out) : keeps (emit o).
Proof. intros w. reflexivity. Qed.

Lemma keeps_input (p : string) : keeps (input p).
Proof.
  intros w. unfold input, bind, emit. simpl. destruct (stdin w); reflexivity.
Qed.

Lemma keeps_index {A : Type} (xs : list A) (i : nat) : keeps (index xs i).
Proof. intros w. unfold index. destruct (nth_error xs i); reflexivity. Qed.

Lemma keeps_run (argv : list string) (mode : StdoutMode) :
  quiet argv = true -> keeps (subprocess_run exec argv mode).
Proof.
  intros H w. rewrite run_eq. unfold after_run. simpl. apply quiet_exec, H.
Qed.

Lemma keeps_for_each {A : Type} (xs : list A) (body : A -> M State unit) :
  (forall x, keeps (body x)) -> keeps (for_each xs body).
Proof.
  intros H. induction xs as [|x xs IH]; simpl.
  - apply keeps_ret.
  - apply keeps_bind; auto.
Qed.

Lemma keeps_check_session (n : string) : keeps (check_session exec n).
Proof.
  unfold check_session. apply keeps_bind.
  - apply keeps_run. reflexivity.
  - intros a. apply keeps_ret.
Qed.

Lemma keeps_attach_session (n : string) : keeps (attach_session exec n).
Proof.
  unfold attach_session. apply keeps_bind; [intros w; reflexivity|].
  intros v. destruct (negb (truthy v));
    (apply keeps_bind; [apply keeps_emit|intros _];
     apply keeps_bind; [apply keeps_run; reflexivity|intros _; apply keeps_ret]).
Qed.

Lemma keeps_print_menu (l : list string) (i : nat) : keeps (print_menu i l).
Proof. intros w. rewrite print_menu_eq. reflexivity. Qed.

Lemma keeps_list_sessions (servers : list string) :
  keeps (list_sessions exec servers).
Proof.
  unfold list_sessions.
  apply keeps_bind; [apply keeps_emit|intros _].
  apply keeps_bind; [apply keeps_run; reflexivity|intros _].
  apply keeps_bind; [apply keeps_emit|intros _].
  apply keeps_for_each. intros x. unfold show_windows.
  apply keeps_bind; [apply keeps_index|intros n].
  apply keeps_bind; [apply keeps_check_session|intros b].
  destruct b; [|apply keeps_ret].
  apply keeps_bind; [apply keeps_emit|intros _].
  apply keeps_bind; [apply keeps_run; reflexivity|intros _; apply keeps_ret].
Qed.

Lemma keeps_main_select (servers : list string) :
  keeps (main_select exec servers).
Proof.
  unfold main_select.
  apply keeps_bind; [apply keeps_run; reflexivity|intros listing].
  destruct (session_count (stdout listing) >? 1)%Z.
  - apply keeps_bind; [apply keeps_emit|intros _].
    apply keeps_bind; [apply keeps_run; reflexivity|intros names].
    apply keeps_bind; [apply keeps_print_menu|intros _].
    apply keeps_bind; [apply keeps_input|intros line].
    apply keeps_bind; [unfold int_of; destruct (Py.int line); [apply keeps_ret|apply keeps_raise]|intros number].
    match goal with |- keeps (if ?b then _ else _) => destruct b end; [|apply keeps_ret].
    apply keeps_bind; [apply keeps_index|intros s]. apply keeps_attach_session.
  - apply keeps_bind; [apply keeps_index|intros first].
    apply keeps_bind; [apply keeps_index|intros n]. apply keeps_attach_session.
Qed.






Lemma has_session_present (n : string) (st : State) :
  installed st = true -> has_session n (table st) = true ->
  exec (has_session_argv n) st = (Launched (mkCompleted 0 EmptyString EmptyString), st).
Proof.
  intros Hi Hn. unfold has_session_argv. rewrite exec_tmux by exact Hi.
  unfold run. cbn [parse String.eqb Ascii.eqb Bool.eqb effect]. rewrite Hn.
  destruct st; simpl in *. subst. reflexivity.
Qed.




Lemma extends_refl (st : State) : extends st st.
Proof. split; auto. Qed.

Lemma extends_trans (a b c : State) : extends a b -> extends b c -> extends a c.
Proof. intros [H1 H2] [H3 H4]. split; [congruence|auto]. Qed.

Lemma has_session_names (n : string) (tbl : list Session) :
  has_session n tbl = existsb (fun x => x =? n) (map sname tbl).
Proof. unfold has_session. induction tbl; simpl; congruence. Qed.

Lemma alter_session_names (n : string) (f : Session -> option Session)
  (tbl tbl' : list Session) :
  (forall s s', f s = Some s' -> sname s' = sname s) ->
  alter_session n f tbl = Some tbl' -> map sname tbl' = map sname tbl.
Proof.
  intros Hf. revert tbl'. induction tbl as [|x tbl IH]; intros tbl'; simpl.
  - discriminate.
  - destruct (sname x =? n).
    + destruct (f x) as [x'|] eqn:E; simpl; [|discriminate].
      intros H. injection H as <-. simpl. f_equal. apply Hf, E.
    + destruct (alter_session n f tbl) as [t|]; simpl; [|discriminate].
      intros H. injection H as <-. simpl. f_equal. apply IH. reflexivity.
Qed.

Lemma alter_window_name (w : option string) (f : Window -> Window) (s s' : Session) :
  alter_window w f s = Some s' -> sname s' = sname s.
Proof.
  unfold alter_window. destruct (window_index w s); [|discriminate].
  intros H. injection H as <-. reflexivity.
Qed.

Lemma effect_names (c : Cmd) (tbl tbl' : list Session) :
  effect c tbl = Some tbl' ->
  exists more, map sname tbl' = (map sname tbl ++ more)%list.
Proof.
  destruct c; simpl; intros H.
  - destruct (has_session target tbl); inversion H; subst. exists []. now rewrite app_nil_r.
  - destruct (session_check_name name && negb (has_session name tbl)); inversion H; subst.
    exists [name]. rewrite map_app. reflexivity.
  - exists []. rewrite app_nil_r. eapply alter_session_names; [|exact H].
    intros s s'. apply alter_window_name.
  - exists []. rewrite app_nil_r. eapply alter_session_names; [|exact H].
    intros s s'. apply alter_window_name.
  - exists []. rewrite app_nil_r. eapply alter_session_names; [|exact H].
    intros s s'. apply alter_window_name.
  - exists []. rewrite app_nil_r. eapply alter_session_names; [|exact H].
    intros s s'. unfold add_window. intros E. injection E as <-. reflexivity.
  - exists []. rewrite app_nil_r. eapply alter_session_names; [|exact H].
    intros s s'. unfold select. destruct (window_index _ s); [|discriminate].
    intros E. injection E as <-. reflexivity.
  - destruct tbl; inversion H; subst. exists []. now rewrite app_nil_r.
  - destruct (has_session target tbl); inversion H; subst. exists []. now rewrite app_nil_r.
  - destruct (has_session target tbl); inversion H; subst. exists []. now rewrite app_nil_r.
  - destruct (has_session target tbl); inversion H; subst. exists []. now rewrite app_nil_r.
Qed.

Lemma run_extends (args : list string) (st : State) : extends st (snd (run args st)).
Proof.
  unfold run. destruct (parse args) as [c|]; [|apply extends_refl].
  destruct (effect c (table st)) as [tbl|] eqn:E; [|apply extends_refl].
  split; [reflexivity|]. simpl. intros n.
  apply effect_names in E. destruct E as [more E].
  rewrite !has_session_names, E, existsb_app. intros ->. reflexivity.
Qed.

Lemma exec_extends (argv : list string) (st : State) : extends st (snd (exec argv st)).
Proof.
  unfold exec. destruct argv as [|prog args]; [apply extends_refl|].
  destruct (prog =? "tmux").
  - destruct (installed st); [|apply extends_refl].
    pose proof (run_extends args st). destruct (run args st). assumption.
  - destruct (prog =? "command"); [|apply extends_refl].
    destruct args as [|v [|name [|x args]]]; try apply extends_refl.
    destruct ((v =? "-v") && (name =? "tmux") && installed st); apply extends_refl.
Qed.

Lemma grows_ret {A : Type} (a : A) : grows (ret a).
Proof. intros w. apply extends_refl. Qed.

Lemma grows_raise {A : Type} (e : Exn) : grows (@raise State A e).
Proof. intros w. apply extends_refl. Qed.

Lemma grows_bind {A B : Type} (m : M State A) (k : A -> M State B) :
  grows m -> (forall a, grows (k a)) -> grows (bind m k).
Proof.
  intros Hm Hk w. unfold bind. specialize (Hm w).
  destruct (m w) as [[a|e] w']; simpl in *; [|exact Hm].
  eapply extends_trans; [exact Hm|apply Hk].
Qed.

Lemma grows_emit (o : Out) : grows (emit o).
Proof. intros w. apply extends_refl. Qed.

Lemma grows_index {A : Type} (xs : list A) (i : nat) : grows (index xs i).
Proof. intros w. unfold index. destruct (nth_error xs i); apply extends_refl. Qed.

Lemma grows_run (argv : list string) (mode : StdoutMode) :
  grows (subprocess_run exec argv mode).
Proof. intros w. rewrite run_eq. unfold after_run. simpl. apply exec_extends. Qed.

Lemma grows_for_each {A : Type} (xs : list A) (body : A -> M State unit) :
  (forall x, grows (body x)) -> grows (for_each xs body).
Proof.
  intros H. induction xs as [|x xs IH]; simpl.
  - apply grows_ret.
  - apply grows_bind; auto.
Qed.

Lemma keeps_grows {A : Type} (m : M State A) : keeps m -> grows m.
Proof. intros H w. rewrite H. apply extends_refl. Qed.

Ltac grows_steps :=
  repeat first
    [ apply grows_ret | apply grows_raise | apply grows_emit | apply grows_index
    | apply grows_run | apply grows_bind; [|intros ?]
    | match goal with |- grows (if ?b then _ else _) => destruct b end ].

Lemma grows_setup_entry (key e : string) : grows (setup_entry exec key e).
Proof. unfold setup_entry. grows_steps. Qed.

Lemma grows_setup_loop (key : string) (servers : list string) :
  grows (for_each servers (setup_entry exec key)).
Proof. apply grows_for_each. intros x. apply grows_setup_entry. Qed.



Lemma probe_installed (st : State) :
  exec probe_argv st =
    (Launched (if installed st then mkCompleted 0 ("tmux" ++ newline) EmptyString
               else mkCompleted 1 EmptyString EmptyString), st).
Proof. unfold probe_argv, exec. simpl. destruct (installed st); reflexivity. Qed.


Lemma ext_bind_keeps {A B : Type} (m : M State A) (k : A -> M State B) (w : World State) :
  (forall a, keeps (k a)) -> ext (snd (bind m k w)) = ext (snd (m w)).
Proof.
  intros Hk. unfold bind. destruct (m w) as [[a|e] w']; simpl; [apply Hk|reflexivity].
Qed.



Lemma require_tmux_ret (w w' : World State) (a : unit) :
  require_tmux exec w = (Ret a, w') -> installed (ext w') = true.
Proof.
  unfold require_tmux. fold probe_argv.
  erewrite bind_run by (discriminate || apply probe_installed).
  destruct (installed (ext w)) eqn:Hi; simpl.
  - unfold ret. intros H. injection H as _ <-. exact Hi.
  - unfold bind, print, emit, raise. simpl. discriminate.
Qed.


Lemma grows_list_sessions (servers : list string) : grows (list_sessions exec servers).
Proof. apply keeps_grows, keeps_list_sessions. Qed.

Lemma setup_installed (key : string) (servers : list string) (w0 w1 : World State) :
  main_setup exec key servers w0 = (Ret tt, w1) -> installed (ext w1) = true.
Proof.
  intros H. unfold main_setup in H.
  apply bind_inv in H. destruct H as (a & wa & Hreq & H).
  apply require_tmux_ret in Hreq.
  assert (G : grows (bind (for_each servers (setup_entry exec key))
                       (fun _ => bind (print (String "010" "Status der Sessions:"))
                          (fun _ => list_sessions exec servers)))).
  { apply grows_bind; [apply grows_setup_loop|intros _].
    apply grows_bind; [apply grows_emit|intros _]. apply grows_list_sessions. }
  destruct (G wa) as [Hi _]. rewrite H in Hi. simpl in Hi. congruence.
Qed.




Lemma list_sessions_empty (st : State) :
  installed st = true -> table st = [] ->
  exec list_argv st = (Launched (mkCompleted 1 EmptyString EmptyString), st).
Proof.
  intros Hi Ht. unfold list_argv. rewrite exec_tmux by exact Hi. unfold run.
  cbn [parse String.eqb Ascii.eqb Bool.eqb effect]. rewrite Ht. reflexivity.
Qed.

Lemma attach_exec (env : string -> option string) (n : string) (st : State) :
  installed st = true ->
  exec (attach_argv env n) st =
    (Launched (mkCompleted (if has_session n (table st) then 0 else 1) EmptyString EmptyString), st).
Proof.
  intros Hi. unfold attach_argv. rewrite exec_tmux by exact Hi. unfold run.
  destruct (truthy (env "TMUX")); cbn [parse String.eqb Ascii.eqb Bool.eqb effect];
    destruct (has_session n (table st)); destruct st; simpl in *; subst; reflexivity.
Qed.




Lemma setup_entry_existing (key entry : string) (w : World State) :
  has_session (entry_name entry) (table (ext w)) = true ->
  ext (snd (setup_entry exec key entry w)) = ext w.
Proof.
  intros H. unfold setup_entry, index. rewrite split_first. unfold bind at 1. cbn [ret].
  destruct (nth_error (Py.split "=" entry) 1) as [a|]; [|reflexivity].
  unfold bind at 1. cbn [ret]. fold (entry_name entry).
  rewrite ext_bind_keeps by (intros; apply keeps_ret).
  unfold create_server_session. unfold bind at 1. rewrite check_session_eq.
  assert (Hq : ext (after_run exec (has_session_argv (entry_name entry)) Inherit w) = ext w)
    by (apply quiet_exec; reflexivity).
  destruct (installed (ext w)) eqn:Hi.
  - rewrite has_session_present by assumption. cbn [fst returncode Z.eqb].
    unfold bind, print, emit, ret. cbn [snd ext]. exact Hq.
  - unfold has_session_argv at 1, exec at 1. cbn [String.eqb Ascii.eqb Bool.eqb].
    rewrite Hi. cbn [fst snd]. exact Hq.
Qed.

Lemma setup_loop_existing (key : string) (servers : list string) (w : World State) :
  Forall (fun e => has_session (entry_name e) (table (ext w)) = true) servers ->
  ext (snd (for_each servers (setup_entry exec key) w)) = ext w.
Proof.
  revert w. induction servers as [|e rest IH]; intros w H; [reflexivity|].
  inversion H as [|? ? H1 H2]; subst. cbn [for_each]. unfold bind.
  pose proof (setup_entry_existing key e w H1) as E.
  destruct (setup_entry exec key e w) as [[u|x] w']; cbn [snd] in *; [|exact E].
  rewrite IH; [exact E|]. rewrite E. exact H2.
Qed.

Lemma keeps_require_tmux : keeps (require_tmux exec).
Proof.
  unfold require_tmux. apply keeps_bind; [apply keeps_run; reflexivity|intros p].
  destruct (negb (returncode p =? 0)%Z); [|apply keeps_ret].
  apply keeps_bind; [apply keeps_emit|intros _; apply keeps_raise].
Qed.

Lemma names_listing (tbl : list Session) :
  output (ListSessions (Some "#{session_name}")) tbl = unlines (map sname tbl).
Proof. unfold output. rewrite <- concat_lines. reflexivity. Qed.

Lemma default_listing (tbl : list Session) :
  output (ListSessions None) tbl = unlines (map session_body tbl).
Proof.
  unfold output. rewrite <- concat_lines. f_equal. apply map_ext. intros s.
  unfold session_line, session_body. rewrite !append_assoc. reflexivity.
Qed.

Lemma body_count (s : Session) :
  Py.contains "010" (sname s) = false -> Py.count "010" (session_body s) = 0%Z.
Proof.
  intros H. unfold session_body.
  rewrite !count_app, (count_contains _ _ H). unfold Py.str. rewrite count_uint. reflexivity.
Qed.

Lemma list_sessions_exec (format : option string) (st : State) :
  installed st = true -> table st <> [] ->
  exec ("tmux" :: "list-sessions"
          :: match format with Some f => ["-F"; f] | None => [] end) st =
    (Launched (mkCompleted 0 (output (ListSessions format) (table st)) EmptyString), st).
Proof.
  intros Hi Ht. rewrite exec_tmux by exact Hi. unfold run.
  assert (Hp : parse ("list-sessions" :: match format with Some f => ["-F"; f] | None => [] end)
               = Some (ListSessions format)) by (destruct format; reflexivity).
  rewrite Hp. cbn [effect]. destruct (table st) eqn:E; [contradiction|].
  rewrite <- E. destruct st; simpl in *. subst. reflexivity.
Qed.

Lemma has_session_in (s : Session) (tbl : list Session) :
  In s tbl -> has_session (sname s) tbl = true.
Proof.
  intros H. unfold has_session. apply existsb_exists. exists s.
  split; [exact H|apply String.eqb_refl].
Qed.



Lemma one_line_facts (n : string) :
  one_line n = true -> Py.contains "010" n = false /\ Py.contains "013" n = false.
Proof.
  unfold one_line. intros H. apply andb_true_iff in H. destruct H as [H1 H2].
  apply negb_true_iff in H1, H2. split; assumption.
Qed.

Lemma all_solid_return (s : string) : all_solid s = true -> Py.contains "013" s = false.
Proof.
  induction s as [|c s IH]; simpl; [reflexivity|].
  intros H. apply andb_true_iff in H. destruct H as [Hc Hs].
  rewrite IH by exact Hs. rewrite orb_false_r.
  destruct (Ascii.eqb_spec c "013"); [subst; discriminate Hc|reflexivity].
Qed.

Lemma plain_one_line (n : string) : plain n = true -> one_line n = true.
Proof.
  intros H. unfold one_line. destruct (plain_facts n H) as (_ & Hl & _).
  unfold plain in H. apply andb_true_iff in H. destruct H as [_ H].
  rewrite Hl, (all_solid_return n H). reflexivity.
Qed.

Lemma body_ends (s : Session) : ends_solid (session_body s).
Proof.
  exists (sname s ++ ": " ++ Py.str (length (windows s)) ++ " window"), "s"%char.
  split; [|reflexivity]. unfold session_body. rewrite !append_assoc. reflexivity.
Qed.

Lemma default_join (s : Session) (tbl : list Session) :
  output (ListSessions None) (s :: tbl) =
    join_lines (map session_body (s :: tbl)) ++ newline.
Proof. rewrite default_listing. cbn [map]. apply unlines_join. Qed.

Lemma join_first (s : Session) (tbl : list Session) :
  exists rest,
    join_lines (map session_body (s :: tbl)) = sname s ++ String ":" rest /\
    ends_solid rest.
Proof.
  destruct tbl as [|t tbl].
  - exists (" " ++ Py.str (length (windows s)) ++ " windows"). split; [reflexivity|].
    exists (" " ++ Py.str (length (windows s)) ++ " window"), "s"%char.
    split; [|reflexivity]. rewrite !append_assoc. reflexivity.
  - exists (" " ++ Py.str (length (windows s)) ++ " windows" ++ newline
              ++ join_lines (map session_body (t :: tbl))).
    split.
    + change (join_lines (map session_body (s :: t :: tbl)))
        with (session_body s ++ newline ++ join_lines (map session_body (t :: tbl))).
      unfold session_body at 1. rewrite !append_assoc. reflexivity.
    + do 4 apply ends_solid_app. apply join_ends_solid; [discriminate|].
      apply Forall_map_intro, Forall_forall. intros x _. apply body_ends.
Qed.

(** The count read off the default listing of a table that is not empty. *)
Lemma bodies_count (s : Session) (tbl : list Session) :
  Forall (fun x => Py.contains "010" (sname x) = false) (s :: tbl) ->
  session_count (output (ListSessions None) (s :: tbl)) = Z.of_nat (S (length tbl)).
Proof.
  intros Hl. rewrite default_join.
  assert (Hc : Py.count "010" (join_lines (map session_body (s :: tbl))) =
               (Z.of_nat (length (s :: tbl)) - 1)%Z).
  { rewrite count_join.
    - rewrite length_map. reflexivity.
    - discriminate.
    - apply Forall_map_intro. eapply Forall_impl; [|exact Hl].
      intros x Hx. apply body_count, Hx. }
  destruct (join_first s tbl) as (rest & E & He). rewrite E in *.
  unfold session_count, Py.strip.
  destruct (lstrip_before_solid ":" (sname s) eq_refl) as (p & z & Hx & Hz).
  change ((sname s ++ String ":" rest) ++ newline)
    with ((sname s ++ String ":" rest) ++ newline).
  rewrite append_assoc. cbn [append]. rewrite Hz.
  replace (z ++ String ":" (rest ++ newline)) with ((z ++ String ":" rest) ++ newline)
    by (rewrite append_assoc; reflexivity).
  rewrite rstrip_line by (apply ends_solid_app, (ends_solid_app (String ":" EmptyString)), He).
  inversion Hl as [|? ? Hs _]; subst.
  apply count_contains in Hs. rewrite Hx, count_app in Hs.
  rewrite count_app in Hc. rewrite count_app.
  pose proof (count_nonneg "010" p). pose proof (count_nonneg "010" z).
  rewrite Hx, count_app in Hc. cbn [length] in Hc. lia.
Qed.

Lemma line_no_return (format : option string) (s : Session) :
  Py.contains "013" (sname s) = false ->
  (format = None \/ format = Some "#{session_name}") ->
  Py.contains "013" (session_line format s) = false.
Proof.
  intros H [->| ->]; cbn [session_line String.eqb Ascii.eqb Bool.eqb].
  - rewrite !contains_app, H. unfold Py.str.
    rewrite contains_uint by (vm_compute; lia). reflexivity.
  - rewrite contains_app, H. reflexivity.
Qed.

Lemma listing_no_return (format : option string) (tbl : list Session) :
  Forall (fun x => Py.contains "013" (sname x) = false) tbl ->
  (format = None \/ format = Some "#{session_name}") ->
  Py.contains "013" (output (ListSessions format) tbl) = false.
Proof.
  intros H Hf. cbn [output]. induction H as [|s tbl Hs Ht IH]; [reflexivity|].
  cbn [map]. destruct tbl as [|t tbl].
  - cbn [map String.concat]. apply line_no_return; assumption.
  - cbn [map String.concat] in *. rewrite !contains_app.
    rewrite line_no_return by assumption. cbn [Py.contains orb]. exact IH.
Qed.

(** A listing without carriage return that the interpreter decodes as it
    stands is its own text. *)
Lemma text_same (raw : string) :
  Py.decode raw = Some raw -> Py.contains "013" raw = false -> Py.text raw = Some raw.
Proof.
  intros Hd Hr. unfold Py.text. rewrite Hd. cbn [option_map].
  rewrite universal_newlines_same by exact Hr. reflexivity.
Qed.

(** The default listing of a table of two or more sessions has several
    lines; its name listing gives the names back. *)
Lemma several_listed (tbl : list Session) :
  2 <= length tbl ->
  Forall (fun x => plain (sname x) = true) tbl ->
  (1 < session_count (output (ListSessions None) tbl))%Z /\
  menu_of (output (ListSessions (Some "#{session_name}")) tbl) = map sname tbl.
Proof.
  intros Hlen Hp. destruct tbl as [|s tbl]; [simpl in Hlen; lia|]. split.
  - rewrite bodies_count.
    + cbn [length] in Hlen. lia.
    + eapply Forall_impl; [|exact Hp]. intros x Hx. apply (plain_facts _ Hx).
  - unfold menu_of. rewrite names_listing.
    apply (names_split (map sname (s :: tbl))); [discriminate|].
    apply Forall_map_intro. exact Hp.
Qed.

End OnAnyInterpreter.

End TmuxFacts.

(** * The claims *)

(** The closed statements below, the concrete runs, are runs on the sample
    interpreter. *)
#[global] Existing Instance sample_interpreter.



(** C4. When the existence check answers [True], [create_server_session]
    runs the [has-session] query and nothing else, prints its message, leaves
    the outside world as the query left it and returns 0; on the reference
    model the session table with its windows and panes is unchanged. *)
Theorem create_existing_session {PY : Py.Interpreter} :
  (forall (Ext : Type) (exec : list string -> Ext -> Launch * Ext)
          (key n a : string) (w : World Ext),
     fst (check_session exec n w) = Ret true ->
     create_server_session exec key n a w =
       (Ret (Some 0%Z),
        mkWorld (snd (exec (has_session_argv n) (ext w))) (environ w) (stdin w)
          (term w ++ shown Inherit (fst (exec (has_session_argv n) (ext w))) ++
             [Printed ("Session " ++ n ++
                       " existiert bereits. Verwende bestehende Session...")])
          (trace w ++ [has_session_argv n]))) /\
  (forall (key n a : string) (w : World Tmux.State),
     fst (check_session Tmux.exec n w) = Ret true ->
     ext (snd (create_server_session Tmux.exec key n a w)) = ext w).
Proof.
  assert (G : forall (Ext : Type) (exec : list string -> Ext -> Launch * Ext)
          (key n a : string) (w : World Ext),
     fst (check_session exec n w) = Ret true ->
     create_server_session exec key n a w =
       (Ret (Some 0%Z),
        mkWorld (snd (exec (has_session_argv n) (ext w))) (environ w) (stdin w)
          (term w ++ shown Inherit (fst (exec (has_session_argv n) (ext w))) ++
             [Printed ("Session " ++ n ++
                       " existiert bereits. Verwende bestehende Session...")])
          (trace w ++ [has_session_argv n]))).
  { intros Ext exec key n a w H. unfold create_server_session. unfold bind at 1.
    rewrite check_session_eq in *. cbn [fst] in H.
    destruct (fst (exec (has_session_argv n) (ext w))) as [cp|] eqn:E; [|discriminate].
    injection H as H. rewrite H. unfold after_run, bind, print, emit, ret.
    cbn [ext environ stdin term trace]. rewrite E, <- app_assoc. reflexivity. }
  split; [exact G|].
  intros key n a w H. rewrite (G _ _ key n a w H). cbn [snd ext].
  apply TmuxFacts.quiet_exec. reflexivity.
Qed.

Lemma create_existing_session_witness :
  create_server_session Tmux.exec SSH_KEY_sample "db" "root@db.example.com"
    (Tmux.world Tmux.one_session Tmux.no_env []) =
    (Ret (Some 0%Z),
     mkWorld Tmux.one_session Tmux.no_env []
       [Tool EmptyString;
        Printed "Session db existiert bereits. Verwende bestehende Session..."]
       [["tmux"; "has-session"; "-t"; "db"]]).
Proof.
  apply (proj1 create_existing_session Tmux.State Tmux.exec SSH_KEY_sample "db"
           "root@db.example.com" (Tmux.world Tmux.one_session Tmux.no_env [])).
  reflexivity.
Defined.

(** C6. [attach_session] issues exactly one command, chosen by the [TMUX]
    variable alone: [attach-session] when it is unset or empty,
    [switch-client] when it is set. *)
Theorem attach_or_switch {PY : Py.Interpreter} (Ext : Type)
  (exec : list string -> Ext -> Launch * Ext)
  (n : string) (w : World Ext) :
  trace (snd (attach_session exec n w)) =
    (trace w ++
       [match environ w "TMUX" with
        | Some (String _ _) => ["tmux"; "switch-client"; "-t"; n]
        | _ => ["tmux"; "attach-session"; "-t"; n]
        end])%list.
Proof.
  rewrite attach_session_eq. cbn [snd trace]. unfold attach_argv, truthy.
  destruct (environ w "TMUX") as [[|c s]|]; reflexivity.
Qed.

Example switch_inside_session :
  trace (snd (attach_session Tmux.exec "db"
                (Tmux.world Tmux.one_session Tmux.inside_env []))) =
    [["tmux"; "switch-client"; "-t"; "db"]] /\
  trace (snd (attach_session Tmux.exec "db"
                (Tmux.world Tmux.one_session Tmux.no_env []))) =
    [["tmux"; "attach-session"; "-t"; "db"]].
Proof. split; reflexivity. Qed.

(** C7. When the availability check exits with a non-zero code, [main]
    prints its message and ends with [SystemExit(1)], having run the check
    and nothing else; when the check exits with zero, [main] goes on to the
    creation loop, never ends with [SystemExit], and has exit status 0
    unless some other failure (an uncaught exception) ends it. *)
Theorem tool_check {PY : Py.Interpreter} {Ext : Type}
  (exec : list string -> Ext -> Launch * Ext)
  (key : string) (servers : list string)
  (w : World Ext) (cp : CompletedProcess) (e : Ext) :
  exec probe_argv (ext w) = (Launched cp, e) ->
  (returncode cp <> 0%Z ->
     main exec key servers w =
       (Raise (SystemExit 1),
        mkWorld e (environ w) (stdin w)
          (term w ++ [Printed "Tmux ist nicht installiert."])
          (trace w ++ [probe_argv])) /\
     exit_status (fst (main exec key servers w)) = 1%Z) /\
  (returncode cp = 0%Z ->
     main exec key servers w =
       bind (for_each servers (setup_entry exec key))
         (fun _ => bind (print (String "010" "Status der Sessions:"))
            (fun _ => bind (list_sessions exec servers)
               (fun _ => main_select exec servers)))
         (mkWorld e (environ w) (stdin w) (term w) (trace w ++ [probe_argv])) /\
     (forall code, fst (main exec key servers w) <> Raise (SystemExit code)) /\
     ((forall failure, fst (main exec key servers w) <> Raise failure) ->
        exit_status (fst (main exec key servers w)) = 0%Z)).
Proof.
  intros H. split; intros Hrc.
  - assert (E : main exec key servers w =
       (Raise (SystemExit 1),
        mkWorld e (environ w) (stdin w)
          (term w ++ [Printed "Tmux ist nicht installiert."])
          (trace w ++ [probe_argv]))).
    { rewrite main_assoc. unfold bind at 1. unfold require_tmux. fold probe_argv.
      rewrite bind_run with (1 := H) by discriminate. cbn [returncode shown].
      apply Z.eqb_neq in Hrc. rewrite Hrc. cbn [negb].
      unfold bind, print, emit, raise. cbn. rewrite app_nil_r. reflexivity. }
    split; [exact E|]. rewrite E. reflexivity.
  - assert (E : main exec key servers w =
       bind (for_each servers (setup_entry exec key))
         (fun _ => bind (print (String "010" "Status der Sessions:"))
            (fun _ => bind (list_sessions exec servers)
               (fun _ => main_select exec servers)))
         (mkWorld e (environ w) (stdin w) (term w) (trace w ++ [probe_argv]))).
    { rewrite main_assoc. unfold bind at 1. unfold require_tmux. fold probe_argv.
      rewrite bind_run with (1 := H) by discriminate. cbn [returncode shown].
      rewrite Hrc. cbn [Z.eqb negb ret]. rewrite app_nil_r. reflexivity. }
    split; [exact E|]. split.
    + intros code. rewrite E. apply no_exit_after_probe.
    + intros Hok. destruct (fst (main exec key servers w)) as [u|x]; [reflexivity|].
      exfalso. apply (Hok x). reflexivity.
Qed.

Lemma tool_check_witness :
  main Tmux.exec SSH_KEY_sample SERVERS_shipped (Tmux.world Tmux.missing Tmux.no_env []) =
    (Raise (SystemExit 1),
     mkWorld Tmux.missing Tmux.no_env [] [Printed "Tmux ist nicht installiert."]
       [["command"; "-v"; "tmux"]]) /\
  exit_status (fst (main Tmux.exec SSH_KEY_sample SERVERS_shipped
                      (Tmux.world Tmux.empty Tmux.no_env []))) = 0%Z.
Proof.
  split.
  - apply (tool_check Tmux.exec SSH_KEY_sample SERVERS_shipped
             (Tmux.world Tmux.missing Tmux.no_env [])
             (mkCompleted 1 EmptyString EmptyString) Tmux.missing eq_refl).
    discriminate.
  - apply (tool_check Tmux.exec SSH_KEY_sample SERVERS_shipped
             (Tmux.world Tmux.empty Tmux.no_env [])
             (mkCompleted 0 ("tmux" ++ Tmux.newline) EmptyString) Tmux.empty eq_refl).
    + reflexivity.
    + intros failure.
      assert (H : fst (main Tmux.exec SSH_KEY_sample SERVERS_shipped
                         (Tmux.world Tmux.empty Tmux.no_env [])) = Ret tt)
        by (vm_compute; reflexivity).
      rewrite H. discriminate.
Defined.

(** C5. With several sessions listed and a line typed at the menu that
    [int] reads as the integer [k]: when [1 <= k <= N], [N] the number of
    menu entries, [main] hands the [k]-th entry to [attach_session], so that
    the last command is the attach or switch to that entry; otherwise [main]
    returns normally after the prompt, having run the two listings only,
    printed nothing after the prompt and read one line. The listings are
    the text that the two captured runs of [list-sessions] gave. *)
Theorem menu_choice {PY : Py.Interpreter} {Ext : Type}
  (exec : list string -> Ext -> Launch * Ext)
  (key : string) (servers : list string) (w0 w1 : World Ext)
  (cp1 cp2 : CompletedProcess) (e1 e2 : Ext)
  (listing names line : string) (rest : list string) (k : Z) :
  main_setup exec key servers w0 = (Ret tt, w1) ->
  exec list_argv (ext w1) = (Launched cp1, e1) ->
  captured cp1 = Some listing ->
  (1 < session_count listing)%Z ->
  exec names_argv e1 = (Launched cp2, e2) ->
  captured cp2 = Some names ->
  stdin w1 = line :: rest ->
  Py.int line = Some k ->
  let sessions := menu_of names in
  let asked :=
    mkWorld e2 (environ w1) rest
      (term w1 ++ Printed menu_header :: menu_lines 1 sessions ++ [Prompt "Auswahl: "])
      (trace w1 ++ [list_argv; names_argv]) in
  ((1 <= k <= Z.of_nat (length sessions))%Z ->
     exists session,
       nth_error sessions (Z.to_nat (k - 1)) = Some session /\
       main exec key servers w0 = attach_session exec session asked /\
       trace (snd (main exec key servers w0)) =
         (trace w1 ++ [list_argv; names_argv; attach_argv (environ w1) session])%list) /\
  (~ (1 <= k <= Z.of_nat (length sessions))%Z ->
     main exec key servers w0 = (Ret tt, asked)).
Proof.
  intros Hs Hl Ht1 Hc Hn Ht2 Hi Hk sessions asked.
  rewrite (main_after_setup _ _ _ _ _ _ Hs).
  pose proof (select_menu _ exec servers w1 _ _ _ _ _ _ _ _ Hl Ht1 Hc Hn Ht2 Hi) as E.
  cbv zeta in E. rewrite E, Hk. clear E.
  fold sessions. fold asked. split; intros Hr.
  - destruct (nth_error sessions (Z.to_nat (k - 1))) as [session|] eqn:E.
    + exists session. split; [reflexivity|].
      replace ((0 <=? k - 1)%Z && (k - 1 <? Z.of_nat (length sessions))%Z) with true
        by (symmetry; apply andb_true_iff; split; [apply Z.leb_le|apply Z.ltb_lt]; lia).
      split; [reflexivity|].
      rewrite attach_session_eq. cbn [snd trace asked]. unfold asked.
      cbn [trace environ]. rewrite <- app_assoc. reflexivity.
    + exfalso. apply nth_error_None in E. lia.
  - replace ((0 <=? k - 1)%Z && (k - 1 <? Z.of_nat (length sessions))%Z) with false;
      [reflexivity|].
    symmetry. apply andb_false_iff.
    destruct (Z.leb_spec 0 (k - 1)); [right|left; reflexivity].
    apply Z.ltb_ge. lia.
Qed.

(** C8. With several sessions listed and an input line that [int] does not
    read as an integer, [main] ends with [ValueError] right after the
    prompt: the two listings are the only commands of the selection step, so
    no attach and no switch is issued, and the exit status is 1. *)
Theorem menu_parse_failure {PY : Py.Interpreter} {Ext : Type}
  (exec : list string -> Ext -> Launch * Ext)
  (key : string) (servers : list string) (w0 w1 : World Ext)
  (cp1 cp2 : CompletedProcess) (e1 e2 : Ext)
  (listing names line : string) (rest : list string) :
  main_setup exec key servers w0 = (Ret tt, w1) ->
  exec list_argv (ext w1) = (Launched cp1, e1) ->
  captured cp1 = Some listing ->
  (1 < session_count listing)%Z ->
  exec names_argv e1 = (Launched cp2, e2) ->
  captured cp2 = Some names ->
  stdin w1 = line :: rest ->
  Py.int line = None ->
  main exec key servers w0 =
    (Raise ValueError,
     mkWorld e2 (environ w1) rest
       (term w1 ++ Printed menu_header
                :: menu_lines 1 (menu_of names) ++ [Prompt "Auswahl: "])
       (trace w1 ++ [list_argv; names_argv])) /\
  exit_status (fst (main exec key servers w0)) = 1%Z.
Proof.
  intros Hs Hl Ht1 Hc Hn Ht2 Hi Hk.
  rewrite (main_after_setup _ _ _ _ _ _ Hs).
  pose proof (select_menu _ exec servers w1 _ _ _ _ _ _ _ _ Hl Ht1 Hc Hn Ht2 Hi) as E.
  cbv zeta in E. rewrite E, Hk. clear E.
  split; reflexivity.
Qed.

Lemma menu_choice_witness :
  trace (snd (main Tmux.exec SSH_KEY_sample two_servers
                (Tmux.world Tmux.empty Tmux.no_env ["2"]))) =
    (trace (ready two_servers ["2"]) ++
       [list_argv; names_argv; ["tmux"; "attach-session"; "-t"; "b"]])%list.
Proof.
  assert (H1 : main_setup Tmux.exec SSH_KEY_sample two_servers
                 (Tmux.world Tmux.empty Tmux.no_env ["2"]) =
               (Ret tt, ready two_servers ["2"])) by (vm_compute; reflexivity).
  assert (H2 : Tmux.exec list_argv (ext (ready two_servers ["2"])) =
               (Launched (mkCompleted 0 (listing None (ready two_servers ["2"])) EmptyString),
                ext (ready two_servers ["2"]))) by (vm_compute; reflexivity).
  assert (T1 : captured (mkCompleted 0 (listing None (ready two_servers ["2"])) EmptyString) =
               Some (listing None (ready two_servers ["2"]))) by (vm_compute; reflexivity).
  assert (H3 : (1 < session_count (listing None (ready two_servers ["2"])))%Z)
    by (vm_compute; reflexivity).
  assert (H4 : Tmux.exec names_argv (ext (ready two_servers ["2"])) =
               (Launched (mkCompleted 0
                            (listing (Some "#{session_name}") (ready two_servers ["2"]))
                            EmptyString),
                ext (ready two_servers ["2"]))) by (vm_compute; reflexivity).
  assert (T2 : captured (mkCompleted 0
                           (listing (Some "#{session_name}") (ready two_servers ["2"]))
                           EmptyString) =
               Some (listing (Some "#{session_name}") (ready two_servers ["2"])))
    by (vm_compute; reflexivity).
  assert (H5 : stdin (ready two_servers ["2"]) = ["2"]) by (vm_compute; reflexivity).
  assert (H6 : Py.int "2" = Some 2%Z) by (vm_compute; reflexivity).
  destruct (menu_choice Tmux.exec SSH_KEY_sample two_servers _ _ _ _ _ _ _ _ _ _ _
              H1 H2 T1 H3 H4 T2 H5 H6) as [Hin _].
  destruct Hin as (session & Hs & _ & Ht); [vm_compute; split; discriminate|].
  vm_compute in Hs. injection Hs as <-. exact Ht.
Defined.

Lemma menu_parse_failure_witness :
  fst (main Tmux.exec SSH_KEY_sample two_servers
         (Tmux.world Tmux.empty Tmux.no_env ["b"])) = Raise ValueError.
Proof.
  assert (H1 : main_setup Tmux.exec SSH_KEY_sample two_servers
                 (Tmux.world Tmux.empty Tmux.no_env ["b"]) =
               (Ret tt, ready two_servers ["b"])) by (vm_compute; reflexivity).
  assert (H2 : Tmux.exec list_argv (ext (ready two_servers ["b"])) =
               (Launched (mkCompleted 0 (listing None (ready two_servers ["b"])) EmptyString),
                ext (ready two_servers ["b"]))) by (vm_compute; reflexivity).
  assert (T1 : captured (mkCompleted 0 (listing None (ready two_servers ["b"])) EmptyString) =
               Some (listing None (ready two_servers ["b"]))) by (vm_compute; reflexivity).
  assert (H3 : (1 < session_count (listing None (ready two_servers ["b"])))%Z)
    by (vm_compute; reflexivity).
  assert (H4 : Tmux.exec names_argv (ext (ready two_servers ["b"])) =
               (Launched (mkCompleted 0
                            (listing (Some "#{session_name}") (ready two_servers ["b"]))
                            EmptyString),
                ext (ready two_servers ["b"]))) by (vm_compute; reflexivity).
  assert (T2 : captured (mkCompleted 0
                           (listing (Some "#{session_name}") (ready two_servers ["b"]))
                           EmptyString) =
               Some (listing (Some "#{session_name}") (ready two_servers ["b"])))
    by (vm_compute; reflexivity).
  assert (H5 : stdin (ready two_servers ["b"]) = ["b"]) by (vm_compute; reflexivity).
  assert (H6 : Py.int "b" = None) by (vm_compute; reflexivity).
  destruct (menu_parse_failure Tmux.exec SSH_KEY_sample two_servers _ _ _ _ _ _ _ _ _ _
              H1 H2 T1 H3 H4 T2 H5 H6) as [E _].
  rewrite E. reflexivity.
Defined.

(** C9. The session count read off a listing is never below 1. With no
    session at all the listing is empty, the count is 1, and [main] takes
    the branch for a single session: on the reference model, after a
    completed set-up that left the table empty, it runs the listing and then
    the attach (or switch) for the name of the first configured entry,
    without menu or prompt, and returns. *)
Theorem count_at_least_one {PY : Py.Interpreter} :
  (forall listing : string, (1 <= session_count listing)%Z) /\
  (forall (key first : string) (rest : list string) (w0 w1 : World Tmux.State),
     main_setup Tmux.exec key (first :: rest) w0 = (Ret tt, w1) ->
     Tmux.table (ext w1) = [] ->
     main Tmux.exec key (first :: rest) w0 =
       (Ret tt,
        mkWorld (ext w1) (environ w1) (stdin w1)
          (term w1 ++ [Printed (attach_message (environ w1) (entry_name first));
                       Tool EmptyString])
          (trace w1 ++ [list_argv; attach_argv (environ w1) (entry_name first)]))).
Proof.
  split.
  - intros listing. unfold session_count.
    pose proof (count_nonneg "010" (Py.strip listing)). lia.
  - intros key first rest w0 w1 Hs Ht.
    pose proof (TmuxFacts.setup_installed _ _ _ _ Hs) as Hi.
    rewrite (main_after_setup _ _ _ _ _ _ Hs).
    rewrite select_single with (cp := mkCompleted 1 EmptyString EmptyString) (e := ext w1)
                               (listing := EmptyString) (first := first) (rest := rest);
      [|reflexivity|apply TmuxFacts.list_sessions_empty; assumption
       |apply captured_silent|vm_compute; discriminate].
    rewrite attach_session_eq. cbn [ext environ stdin term trace].
    rewrite TmuxFacts.attach_exec by exact Hi. cbn [fst snd finished shown stdout].
    rewrite <- app_assoc. reflexivity.
Qed.

Lemma count_at_least_one_witness :
  main Tmux.exec SSH_KEY_sample ["a.b=x"] (Tmux.world Tmux.empty Tmux.no_env []) =
    (Ret tt,
     mkWorld Tmux.empty Tmux.no_env []
       (term (ready ["a.b=x"] []) ++
          [Printed "Verbinde mit Session a.b..."; Tool EmptyString])
       (trace (ready ["a.b=x"] []) ++
          [list_argv; ["tmux"; "attach-session"; "-t"; "a.b"]])).
Proof.
  assert (H1 : main_setup Tmux.exec SSH_KEY_sample ["a.b=x"]
                 (Tmux.world Tmux.empty Tmux.no_env []) =
               (Ret tt, ready ["a.b=x"] [])) by (vm_compute; reflexivity).
  assert (H2 : Tmux.table (ext (ready ["a.b=x"] [])) = []) by (vm_compute; reflexivity).
  exact (proj2 count_at_least_one SSH_KEY_sample "a.b=x" [] _ _ H1 H2).
Defined.







(** C10. [main] reads an entry with [split('=')]: the session name is
    element 0, the part before the first [=], and the address is element 1,
    the part between the first [=] and the next one (or the end of the
    entry); an entry without [=] raises [IndexError]. Hence for an entry
    [n=a=r] the address handed to [create_server_session] is [a], cut at the
    second [=]. [list_sessions] reads the name the same way. *)
Theorem entry_parsing {PY : Py.Interpreter} :
  (forall entry : string,
     nth_error (Py.split "=" entry) 0 = Some (entry_name entry) /\
     nth_error (Py.split "=" entry) 1 = entry_address entry) /\
  (forall (Ext : Type) (exec : list string -> Ext -> Launch * Ext)
          (key entry : string) (w : World Ext),
     setup_entry exec key entry w =
       match entry_address entry with
       | Some address =>
           bind (create_server_session exec key (entry_name entry) address)
             (fun _ => ret tt) w
       | None => (Raise IndexError, w)
       end /\
     show_windows exec entry w =
       bind (check_session exec (entry_name entry))
         (fun exists_ : bool =>
            if exists_ then
              bind (print (String "010" "Session: " ++ entry_name entry))
                (fun _ =>
                   bind (subprocess_run exec
                           ["tmux"; "list-windows"; "-t"; entry_name entry] Inherit)
                     (fun _ => ret tt))
            else ret tt) w) /\
  (forall n a r : string,
     Py.contains "=" n = false -> Py.contains "=" a = false ->
     entry_name (n ++ "=" ++ a ++ "=" ++ r) = n /\
     entry_address (n ++ "=" ++ a ++ "=" ++ r) = Some a /\
     entry_address (n ++ "=" ++ a) = Some a).
Proof.
  split; [|split].
  - intros entry. split; [apply split_first|apply split_second].
  - intros Ext exec key entry w. split.
    + unfold setup_entry, index. rewrite split_first, split_second.
      fold (entry_address entry). fold (entry_name entry).
      destruct (entry_address entry); reflexivity.
    + unfold show_windows, index. rewrite split_first. reflexivity.
  - intros n a r Hn Ha. unfold entry_name, entry_address.
    change ("=" ++ a ++ "=" ++ r) with (String "=" (a ++ String "=" r)).
    change ("=" ++ a) with (String "=" a).
    rewrite before_first_app, !after_first_app by exact Hn. cbn [option_map].
    rewrite before_first_app, before_first_none by exact Ha. auto.
Qed.

Lemma entry_parsing_witness :
  entry_name "db=root@db.example.com=22" = "db" /\
  entry_address "db=root@db.example.com=22" = Some "root@db.example.com" /\
  entry_address "db=root@db.example.com" = Some "root@db.example.com".
Proof.
  apply (proj2 (proj2 entry_parsing) "db" "root@db.example.com" "22").
  - reflexivity.
  - reflexivity.
Defined.

(** * Further properties of the script *)



(** X2. An entry without [=] stops the creation loop of [main] (lines
    142-145): once the tool check has passed and the entries before it have
    been handled, [main] ends with [IndexError] in the world those entries
    left, so no later entry is handled and nothing is listed or attached;
    the exit status is 1. *)
Theorem malformed_entry_stops {PY : Py.Interpreter} {Ext : Type}
  (exec : list string -> Ext -> Launch * Ext)
  (key : string) (good : list string) (bad : string) (rest : list string)
  (w w' : World Ext) (cp : CompletedProcess) (e : Ext) :
  exec probe_argv (ext w) = (Launched cp, e) -> returncode cp = 0%Z ->
  Py.contains "=" bad = false ->
  for_each good (setup_entry exec key)
    (mkWorld e (environ w) (stdin w) (term w) (trace w ++ [probe_argv])) = (Ret tt, w') ->
  main exec key (good ++ bad :: rest) w = (Raise IndexError, w') /\
  exit_status (fst (main exec key (good ++ bad :: rest) w)) = 1%Z.
Proof.
  intros Hp Hrc Hb Hg.
  assert (E : main exec key (good ++ bad :: rest) w = (Raise IndexError, w')).
  { rewrite main_assoc.
    rewrite bind_ret with (a := tt) (1 := require_tmux_passes _ exec w _ _ Hp Hrc).
    unfold bind at 1. rewrite for_each_app.
    rewrite bind_ret with (a := tt) (1 := Hg).
    cbn [for_each]. unfold bind at 1.
    rewrite setup_entry_malformed by exact Hb. reflexivity. }
  rewrite E. split; reflexivity.
Qed.

(** X3. With an empty server list, after the set-up, a listing whose text
    has at most one line sends [main] to [SERVERS[0]] (line 166), which
    raises [IndexError]: the listing is the last command, nothing is
    attached. *)
Theorem empty_configuration {PY : Py.Interpreter} {Ext : Type}
  (exec : list string -> Ext -> Launch * Ext)
  (key : string) (w0 w1 : World Ext) (cp : CompletedProcess) (e : Ext)
  (listing : string) :
  main_setup exec key [] w0 = (Ret tt, w1) ->
  exec list_argv (ext w1) = (Launched cp, e) ->
  captured cp = Some listing ->
  (session_count listing <= 1)%Z ->
  main exec key [] w0 =
    (Raise IndexError,
     mkWorld e (environ w1) (stdin w1) (term w1) (trace w1 ++ [list_argv])).
Proof.
  intros Hs Hl Ht Hc. rewrite (main_after_setup _ _ _ _ _ _ Hs).
  unfold main_select. fold list_argv. unfold bind at 1.
  destruct (run_capture _ _ _ _ _ _ _ Hl Ht) as [err E]. rewrite E. cbn [stdout].
  destruct (Z.gtb_spec (session_count listing) 1) as [Hgt|_]; [lia|].
  unfold bind, index. cbn [nth_error]. unfold raise. reflexivity.
Qed.

(** X4. With several sessions listed and standard input at its end,
    [input] (line 161) raises [EOFError]: [main] ends right after the menu
    and the prompt, having run the two listings only. *)
Theorem prompt_end_of_input {PY : Py.Interpreter} {Ext : Type}
  (exec : list string -> Ext -> Launch * Ext)
  (key : string) (servers : list string) (w0 w1 : World Ext)
  (cp1 cp2 : CompletedProcess) (e1 e2 : Ext) (listing names : string) :
  main_setup exec key servers w0 = (Ret tt, w1) ->
  exec list_argv (ext w1) = (Launched cp1, e1) ->
  captured cp1 = Some listing ->
  (1 < session_count listing)%Z ->
  exec names_argv e1 = (Launched cp2, e2) ->
  captured cp2 = Some names ->
  stdin w1 = [] ->
  main exec key servers w0 =
    (Raise EOFError,
     mkWorld e2 (environ w1) []
       (term w1 ++ Printed menu_header
                :: menu_lines 1 (menu_of names) ++ [Prompt "Auswahl: "])
       (trace w1 ++ [list_argv; names_argv])).
Proof.
  intros Hs Hl Ht1 Hc Hn Ht2 Hi. rewrite (main_after_setup _ _ _ _ _ _ Hs).
  apply select_menu_eof with (cp1 := cp1) (e1 := e1) (cp2 := cp2) (listing := listing);
    assumption.
Qed.

(** X5. In the single-session branch (lines 164-167) the exit code of the
    attach command is not looked at: whatever it is, [main] returns normally
    after the attach (or switch) to the first entry's name, with exit
    status 0. *)
Theorem failed_attach_unreported {PY : Py.Interpreter} {Ext : Type}
  (exec : list string -> Ext -> Launch * Ext)
  (key first : string) (rest : list string) (w0 w1 : World Ext)
  (cp1 cp2 : CompletedProcess) (e1 e2 : Ext) (listing : string) :
  main_setup exec key (first :: rest) w0 = (Ret tt, w1) ->
  exec list_argv (ext w1) = (Launched cp1, e1) ->
  captured cp1 = Some listing ->
  (session_count listing <= 1)%Z ->
  exec (attach_argv (environ w1) (entry_name first)) e1 = (Launched cp2, e2) ->
  main exec key (first :: rest) w0 =
    (Ret tt,
     mkWorld e2 (environ w1) (stdin w1)
       (term w1 ++ [Printed (attach_message (environ w1) (entry_name first));
                    Tool (stdout cp2)])
       (trace w1 ++ [list_argv; attach_argv (environ w1) (entry_name first)])) /\
  exit_status (fst (main exec key (first :: rest) w0)) = 0%Z.
Proof.
  intros Hs Hl Ht Hc Ha.
  assert (E : main exec key (first :: rest) w0 =
    (Ret tt,
     mkWorld e2 (environ w1) (stdin w1)
       (term w1 ++ [Printed (attach_message (environ w1) (entry_name first));
                    Tool (stdout cp2)])
       (trace w1 ++ [list_argv; attach_argv (environ w1) (entry_name first)]))).
  { rewrite (main_after_setup _ _ _ _ _ _ Hs).
    rewrite select_single with (cp := cp1) (e := e1) (listing := listing)
                               (first := first) (rest := rest)
      by (reflexivity || assumption).
    rewrite attach_session_eq. cbn [ext environ stdin term trace].
    rewrite Ha. cbn [fst snd finished shown]. rewrite <- app_assoc. reflexivity. }
  rewrite E. split; reflexivity.
Qed.

Lemma malformed_entry_stops_witness :
  fst (main Tmux.exec SSH_KEY_sample (["a=x"] ++ "b" :: ["c=z"])
         (Tmux.world Tmux.empty Tmux.no_env [])) = Raise IndexError /\
  map Tmux.sname
    (Tmux.table (ext (snd (main Tmux.exec SSH_KEY_sample (["a=x"] ++ "b" :: ["c=z"])
                             (Tmux.world Tmux.empty Tmux.no_env []))))) = ["a"].
Proof.
  assert (H1 : Tmux.exec probe_argv (ext (Tmux.world Tmux.empty Tmux.no_env [])) =
               (Launched (mkCompleted 0 ("tmux" ++ Tmux.newline) EmptyString), Tmux.empty))
    by (vm_compute; reflexivity).
  assert (H2 : Py.contains "=" "b" = false) by (vm_compute; reflexivity).
  assert (H3 : for_each ["a=x"] (setup_entry Tmux.exec SSH_KEY_sample)
                 (mkWorld Tmux.empty Tmux.no_env [] [] ([] ++ [probe_argv])) =
               (Ret tt,
                snd (for_each ["a=x"] (setup_entry Tmux.exec SSH_KEY_sample)
                       (mkWorld Tmux.empty Tmux.no_env [] [] ([] ++ [probe_argv])))))
    by (vm_compute; reflexivity).
  destruct (malformed_entry_stops Tmux.exec SSH_KEY_sample ["a=x"] "b" ["c=z"]
              _ _ _ _ H1 eq_refl H2 H3) as [E _].
  rewrite E. split; [reflexivity|vm_compute; reflexivity].
Defined.

Lemma empty_configuration_witness :
  fst (main Tmux.exec SSH_KEY_sample [] (Tmux.world Tmux.empty Tmux.no_env [])) =
    Raise IndexError.
Proof.
  assert (H1 : main_setup Tmux.exec SSH_KEY_sample []
                 (Tmux.world Tmux.empty Tmux.no_env []) = (Ret tt, ready [] []))
    by (vm_compute; reflexivity).
  assert (H2 : Tmux.exec list_argv (ext (ready [] [])) =
               (Launched (mkCompleted 1 EmptyString EmptyString), Tmux.empty))
    by (vm_compute; reflexivity).
  assert (T : captured (mkCompleted 1 EmptyString EmptyString) = Some EmptyString)
    by (vm_compute; reflexivity).
  assert (H3 : (session_count EmptyString <= 1)%Z) by (vm_compute; discriminate).
  rewrite (empty_configuration Tmux.exec SSH_KEY_sample _ _ _ _ _ H1 H2 T H3).
  reflexivity.
Defined.

Lemma prompt_end_of_input_witness :
  fst (main Tmux.exec SSH_KEY_sample two_servers
         (Tmux.world Tmux.empty Tmux.no_env [])) = Raise EOFError.
Proof.
  assert (H1 : main_setup Tmux.exec SSH_KEY_sample two_servers
                 (Tmux.world Tmux.empty Tmux.no_env []) =
               (Ret tt, ready two_servers [])) by (vm_compute; reflexivity).
  assert (H2 : Tmux.exec list_argv (ext (ready two_servers [])) =
               (Launched (mkCompleted 0 (listing None (ready two_servers [])) EmptyString),
                ext (ready two_servers []))) by (vm_compute; reflexivity).
  assert (T1 : captured (mkCompleted 0 (listing None (ready two_servers [])) EmptyString) =
               Some (listing None (ready two_servers []))) by (vm_compute; reflexivity).
  assert (H3 : (1 < session_count (listing None (ready two_servers [])))%Z)
    by (vm_compute; reflexivity).
  assert (H4 : Tmux.exec names_argv (ext (ready two_servers [])) =
               (Launched (mkCompleted 0
                            (listing (Some "#{session_name}") (ready two_servers [])) EmptyString),
                ext (ready two_servers []))) by (vm_compute; reflexivity).
  assert (T2 : captured (mkCompleted 0
                           (listing (Some "#{session_name}") (ready two_servers []))
                           EmptyString) =
               Some (listing (Some "#{session_name}") (ready two_servers [])))
    by (vm_compute; reflexivity).
  assert (H5 : stdin (ready two_servers []) = []) by (vm_compute; reflexivity).
  rewrite (prompt_end_of_input Tmux.exec SSH_KEY_sample two_servers _ _ _ _ _ _ _ _
             H1 H2 T1 H3 H4 T2 H5).
  reflexivity.
Defined.

Lemma failed_attach_unreported_witness :
  exit_status (fst (main Tmux.exec SSH_KEY_sample ["a.b=x"]
                      (Tmux.world Tmux.empty Tmux.no_env []))) = 0%Z.
Proof.
  assert (H1 : main_setup Tmux.exec SSH_KEY_sample ["a.b=x"]
                 (Tmux.world Tmux.empty Tmux.no_env []) =
               (Ret tt, ready ["a.b=x"] [])) by (vm_compute; reflexivity).
  assert (H2 : Tmux.exec list_argv (ext (ready ["a.b=x"] [])) =
               (Launched (mkCompleted 1 EmptyString EmptyString), Tmux.empty))
    by (vm_compute; reflexivity).
  assert (T : captured (mkCompleted 1 EmptyString EmptyString) = Some EmptyString)
    by (vm_compute; reflexivity).
  assert (H3 : (session_count EmptyString <= 1)%Z) by (vm_compute; discriminate).
  assert (H4 : Tmux.exec (attach_argv (environ (ready ["a.b=x"] [])) (entry_name "a.b=x"))
                 Tmux.empty =
               (Launched (mkCompleted 1 EmptyString EmptyString), Tmux.empty))
    by (vm_compute; reflexivity).
  exact (proj2 (failed_attach_unreported Tmux.exec SSH_KEY_sample "a.b=x" []
                  _ _ _ _ _ _ _ H1 H2 T H3 H4)).
Defined.

(** X16. When the tool check itself cannot be started (no [command]
    executable), [main] ends with the [FileNotFoundError] of
    [subprocess.run] (line 137): nothing is printed, the check is the only
    command tried, and the exit status is 1. *)
Theorem probe_not_startable {PY : Py.Interpreter} {Ext : Type}
  (exec : list string -> Ext -> Launch * Ext)
  (key : string) (servers : list string) (w : World Ext) (e : Ext) :
  exec probe_argv (ext w) = (NotFound, e) ->
  main exec key servers w =
    (Raise FileNotFoundError,
     mkWorld e (environ w) (stdin w) (term w) (trace w ++ [probe_argv])) /\
  exit_status (fst (main exec key servers w)) = 1%Z.
Proof.
  intros H.
  assert (E : main exec key servers w =
    (Raise FileNotFoundError,
     mkWorld e (environ w) (stdin w) (term w) (trace w ++ [probe_argv]))).
  { rewrite main_assoc. unfold bind at 1. unfold require_tmux. fold probe_argv.
    unfold bind at 1. rewrite run_eq. unfold after_run. rewrite H.
    cbn [completed fst snd shown]. rewrite app_nil_r. reflexivity. }
  rewrite E. split; reflexivity.
Qed.

Lemma probe_not_startable_witness :
  main absent SSH_KEY_sample SERVERS_shipped (mkWorld tt Tmux.no_env [] [] []) =
    (Raise FileNotFoundError,
     mkWorld tt Tmux.no_env [] [] [["command"; "-v"; "tmux"]]).
Proof.
  apply (probe_not_startable absent SSH_KEY_sample SERVERS_shipped
           (mkWorld tt Tmux.no_env [] [] []) tt).
  reflexivity.
Defined.

(** X17. A captured listing that is not text ends the run (lines 152-153):
    when the set-up has completed and the standard output or the error
    output of the captured [list-sessions] cannot be decoded,
    [subprocess.run] raises [UnicodeDecodeError]. The listing is then the
    last command: no menu, no prompt, no attach; the exit status is 1. *)
Theorem undecodable_listing {PY : Py.Interpreter} {Ext : Type}
  (exec : list string -> Ext -> Launch * Ext)
  (key : string) (servers : list string) (w0 w1 : World Ext)
  (cp : CompletedProcess) (e : Ext) :
  main_setup exec key servers w0 = (Ret tt, w1) ->
  exec list_argv (ext w1) = (Launched cp, e) ->
  captured cp = None ->
  main exec key servers w0 =
    (Raise UnicodeDecodeError,
     mkWorld e (environ w1) (stdin w1) (term w1) (trace w1 ++ [list_argv])) /\
  exit_status (fst (main exec key servers w0)) = 1%Z.
Proof.
  intros Hs Hl Ht.
  assert (E : main exec key servers w0 =
    (Raise UnicodeDecodeError,
     mkWorld e (environ w1) (stdin w1) (term w1) (trace w1 ++ [list_argv]))).
  { rewrite (main_after_setup _ _ _ _ _ _ Hs).
    unfold main_select. fold list_argv. unfold bind at 1.
    rewrite (run_undecodable _ _ _ _ _ _ Hl Ht). reflexivity. }
  rewrite E. split; reflexivity.
Qed.

Lemma undecodable_listing_witness :
  fst (main Tmux.exec SSH_KEY_sample ["db=x"]
         (Tmux.world Tmux.stray_session Tmux.no_env [])) = Raise UnicodeDecodeError.
Proof.
  assert (H1 : main_setup Tmux.exec SSH_KEY_sample ["db=x"]
                 (Tmux.world Tmux.stray_session Tmux.no_env []) =
               (Ret tt,
                snd (main_setup Tmux.exec SSH_KEY_sample ["db=x"]
                       (Tmux.world Tmux.stray_session Tmux.no_env []))))
    by (vm_compute; reflexivity).
  assert (H2 : Tmux.exec list_argv
                 (ext (snd (main_setup Tmux.exec SSH_KEY_sample ["db=x"]
                              (Tmux.world Tmux.stray_session Tmux.no_env [])))) =
               (Launched
                  (mkCompleted 0
                     (listing None
                        (snd (main_setup Tmux.exec SSH_KEY_sample ["db=x"]
                                (Tmux.world Tmux.stray_session Tmux.no_env []))))
                     EmptyString),
                ext (snd (main_setup Tmux.exec SSH_KEY_sample ["db=x"]
                            (Tmux.world Tmux.stray_session Tmux.no_env [])))))
    by (vm_compute; reflexivity).
  assert (H3 : captured
                 (mkCompleted 0
                    (listing None
                       (snd (main_setup Tmux.exec SSH_KEY_sample ["db=x"]
                               (Tmux.world Tmux.stray_session Tmux.no_env []))))
                    EmptyString) = None)
    by (vm_compute; reflexivity).
  rewrite (proj1 (undecodable_listing Tmux.exec SSH_KEY_sample ["db=x"] _ _ _ _ H1 H2 H3)).
  reflexivity.
Defined.

(** * Further properties on the reference model *)

Section OnTheModel.
Import Tmux TmuxFacts.



(** X7. Running the driver when every configured name already has a
    session changes nothing in the multiplexer: whatever the entries look
    like, whatever is typed and whether or not the run ends with an
    exception, the state after [main] is the state before it. *)
Theorem rerun_changes_nothing {PY : Py.Interpreter} (key : string)
  (servers : list string) (w : World State) :
  Forall (fun e => has_session (entry_name e) (table (ext w)) = true) servers ->
  ext (snd (main exec key servers w)) = ext w.
Proof.
  intros H. unfold main.
  rewrite ext_bind_keeps by (intros; apply keeps_main_select).
  unfold main_setup. unfold bind at 1.
  pose proof (keeps_require_tmux w) as E0.
  destruct (require_tmux exec w) as [[u|x] w1]; cbn [snd] in *; [|exact E0].
  unfold bind at 1.
  assert (E1 : ext (snd (for_each servers (setup_entry exec key) w1)) = ext w)
    by (rewrite setup_loop_existing; [exact E0|rewrite E0; exact H]).
  destruct (for_each servers (setup_entry exec key) w1) as [[u1|x1] w2];
    cbn [snd] in *; [|exact E1].
  rewrite ext_bind_keeps by (intros; apply keeps_list_sessions).
  exact E1.
Qed.

Lemma rerun_changes_nothing_witness :
  ext (snd (main exec SSH_KEY_sample ["db=root@db.example.com"]
              (world one_session no_env []))) = one_session.
Proof.
  apply (rerun_changes_nothing SSH_KEY_sample ["db=root@db.example.com"]
           (world one_session no_env [])).
  repeat constructor.
Defined.

(** X9. The session count of lines 152-153 against the table: with the tool
    installed, when no session name contains a line end (line feed or
    carriage return) and the interpreter decodes the listing as it stands,
    the count read off the captured listing is the number of sessions,
    except that an empty table counts as 1. So the menu branch is taken
    exactly when there are two or more sessions. *)
Theorem count_is_table_size {PY : Py.Interpreter} (st : State) :
  installed st = true ->
  Forall (fun s => one_line (sname s) = true) (table st) ->
  Py.decode (output (ListSessions None) (table st)) =
    Some (output (ListSessions None) (table st)) ->
  exists cp,
    exec list_argv st = (Launched cp, st) /\
    option_map session_count (captured cp) =
      Some (Z.max 1 (Z.of_nat (length (table st)))).
Proof.
  intros Hi Hp Hd. destruct (table st) as [|s tbl] eqn:Et.
  - exists (mkCompleted 1 EmptyString EmptyString).
    split; [apply list_sessions_empty; assumption|].
    rewrite captured_silent. reflexivity.
  - exists (mkCompleted 0 (output (ListSessions None) (table st)) EmptyString).
    split; [apply (list_sessions_exec None); [exact Hi|rewrite Et; discriminate]|].
    rewrite captured_out, Et, text_same.
    + cbn [option_map]. rewrite bodies_count.
      * f_equal. cbn [length]. lia.
      * eapply Forall_impl; [|exact Hp]. intros x Hx. apply (one_line_facts _ Hx).
    + exact Hd.
    + apply listing_no_return; [|left; reflexivity].
      eapply Forall_impl; [|exact Hp]. intros x Hx. apply (one_line_facts _ Hx).
Qed.

Lemma count_is_table_size_witness :
  exists cp,
    exec list_argv (ext (ready two_servers [])) = (Launched cp, ext (ready two_servers [])) /\
    option_map session_count (captured cp) = Some 2%Z.
Proof.
  assert (H1 : installed (ext (ready two_servers [])) = true) by (vm_compute; reflexivity).
  assert (H2 : Forall (fun s => one_line (sname s) = true) (table (ext (ready two_servers []))))
    by (vm_compute; repeat constructor).
  assert (H3 : Py.decode (output (ListSessions None) (table (ext (ready two_servers [])))) =
               Some (output (ListSessions None) (table (ext (ready two_servers [])))))
    by (vm_compute; reflexivity).
  destruct (count_is_table_size (ext (ready two_servers [])) H1 H2 H3) as (cp & E1 & E2).
  exists cp. split; [exact E1|]. rewrite E2. vm_compute. reflexivity.
Defined.

(** X10. The menu of lines 157-158 against the table: with the tool
    installed, when the table is not empty, every session name is plain (not
    empty, ASCII, no white space) and the interpreter decodes the listing of
    the names as it stands, the menu entries read off the captured listing
    are the session names, in table order. *)
Theorem menu_is_table {PY : Py.Interpreter} (st : State) :
  installed st = true -> table st <> [] ->
  Forall (fun s => plain (sname s) = true) (table st) ->
  Py.decode (output (ListSessions (Some "#{session_name}")) (table st)) =
    Some (output (ListSessions (Some "#{session_name}")) (table st)) ->
  exists cp,
    exec names_argv st = (Launched cp, st) /\
    option_map menu_of (captured cp) = Some (map sname (table st)).
Proof.
  intros Hi Hn Hp Hd.
  exists (mkCompleted 0 (output (ListSessions (Some "#{session_name}")) (table st)) EmptyString).
  split; [apply (list_sessions_exec (Some "#{session_name}")); assumption|].
  rewrite captured_out, text_same.
  - cbn [option_map]. f_equal. unfold menu_of. rewrite names_listing.
    destruct (table st) as [|s tbl]; [contradiction|].
    apply (names_split (map sname (s :: tbl))); [discriminate|].
    apply Forall_map_intro. exact Hp.
  - exact Hd.
  - apply listing_no_return; [|right; reflexivity].
    eapply Forall_impl; [|exact Hp]. intros x Hx.
    apply (one_line_facts _ (plain_one_line _ Hx)).
Qed.

Lemma menu_is_table_witness :
  exists cp,
    exec names_argv (ext (ready two_servers [])) = (Launched cp, ext (ready two_servers [])) /\
    option_map menu_of (captured cp) = Some ["a"; "b"].
Proof.
  assert (H1 : installed (ext (ready two_servers [])) = true) by (vm_compute; reflexivity).
  assert (H2 : table (ext (ready two_servers [])) <> []) by (vm_compute; discriminate).
  assert (H3 : Forall (fun s => plain (sname s) = true) (table (ext (ready two_servers []))))
    by (vm_compute; repeat constructor).
  assert (H4 : Py.decode (output (ListSessions (Some "#{session_name}"))
                            (table (ext (ready two_servers [])))) =
               Some (output (ListSessions (Some "#{session_name}"))
                       (table (ext (ready two_servers [])))))
    by (vm_compute; reflexivity).
  destruct (menu_is_table (ext (ready two_servers [])) H1 H2 H3 H4) as (cp & E1 & E2).
  exists cp. split; [exact E1|]. rewrite E2. vm_compute. reflexivity.
Defined.

(** X11. Choosing from the menu on the reference model: after the set-up,
    with two or more sessions whose names are plain and whose two listings
    the interpreter decodes as they stand, typing a line that [int] reads as
    the number [k] of a session of the table makes [main] print the menu of
    all session names, attach (or switch) to the [k]-th session of the table
    and return, having read that one line. *)
Theorem choose_from_table {PY : Py.Interpreter} (key : string) (servers : list string)
  (w0 w1 : World State) (line : string) (rest : list string) (k : Z) (s : Session) :
  main_setup exec key servers w0 = (Ret tt, w1) ->
  2 <= length (table (ext w1)) ->
  Forall (fun x => plain (sname x) = true) (table (ext w1)) ->
  Py.decode (listing None w1) = Some (listing None w1) ->
  Py.decode (listing (Some "#{session_name}") w1) =
    Some (listing (Some "#{session_name}") w1) ->
  stdin w1 = line :: rest ->
  Py.int line = Some k ->
  (1 <= k)%Z ->
  nth_error (table (ext w1)) (Z.to_nat (k - 1)) = Some s ->
  main exec key servers w0 =
    (Ret tt,
     mkWorld (ext w1) (environ w1) rest
       (term w1 ++ Printed menu_header
                :: menu_lines 1 (map sname (table (ext w1))) ++
                   [Prompt "Auswahl: ";
                    Printed (attach_message (environ w1) (sname s));
                    Tool EmptyString])
       (trace w1 ++ [list_argv; names_argv; attach_argv (environ w1) (sname s)])).
Proof.
  intros Hs Hlen Hp Hd1 Hd2 Hin Hk Hk1 Hnth.
  pose proof (setup_installed _ _ _ _ Hs) as Hi.
  assert (Hne : table (ext w1) <> [])
    by (destruct (table (ext w1)); simpl in *; [lia|discriminate]).
  assert (Hr : Forall (fun x => Py.contains "013" (sname x) = false) (table (ext w1))).
  { eapply Forall_impl; [|exact Hp]. intros x Hx.
    apply (one_line_facts _ (plain_one_line _ Hx)). }
  rewrite (main_after_setup _ _ _ _ _ _ Hs).
  destruct (several_listed (table (ext w1)) Hlen Hp) as [Hc Hm].
  unfold listing in Hd1, Hd2.
  pose proof (select_menu _ exec servers w1
                (mkCompleted 0 (output (ListSessions None) (table (ext w1))) EmptyString)
                (mkCompleted 0 (output (ListSessions (Some "#{session_name}"))
                                  (table (ext w1))) EmptyString)
                (ext w1) (ext w1)
                (output (ListSessions None) (table (ext w1)))
                (output (ListSessions (Some "#{session_name}")) (table (ext w1)))
                line rest
                (list_sessions_exec None (ext w1) Hi Hne)) as E.
  rewrite !captured_out in E.
  specialize (E (text_same _ Hd1 (listing_no_return _ _ Hr (or_introl eq_refl))) Hc
                (list_sessions_exec (Some "#{session_name}") (ext w1) Hi Hne)
                (text_same _ Hd2 (listing_no_return _ _ Hr (or_intror eq_refl))) Hin).
  cbv zeta in E. rewrite Hm in E.
  rewrite E, Hk. clear E. rewrite length_map.
  pose proof (nth_error_Some (table (ext w1)) (Z.to_nat (k - 1))) as Hb.
  rewrite Hnth in Hb. assert (Hlt : Z.to_nat (k - 1) < length (table (ext w1)))
    by (apply Hb; discriminate).
  replace ((0 <=? k - 1)%Z && (k - 1 <? Z.of_nat (length (table (ext w1))))%Z) with true
    by (symmetry; apply andb_true_iff; split; [apply Z.leb_le|apply Z.ltb_lt]; lia).
  rewrite (map_nth_error sname _ _ Hnth).
  rewrite attach_session_eq. cbn [ext environ stdin term trace].
  rewrite attach_exec by exact Hi.
  rewrite (has_session_in s _ (nth_error_In _ _ Hnth)).
  cbn [fst snd finished shown stdout]. f_equal. f_equal.
  - rewrite <- !app_assoc. cbn [app]. rewrite <- !app_assoc. reflexivity.
  - rewrite <- app_assoc. reflexivity.
Qed.

Lemma choose_from_table_witness :
  trace (snd (main exec SSH_KEY_sample two_servers (world empty no_env ["2"]))) =
    (trace (ready two_servers ["2"]) ++
       [list_argv; names_argv; ["tmux"; "attach-session"; "-t"; "b"]])%list.
Proof.
  assert (H1 : main_setup exec SSH_KEY_sample two_servers (world empty no_env ["2"]) =
               (Ret tt, ready two_servers ["2"])) by (vm_compute; reflexivity).
  assert (H2 : 2 <= length (table (ext (ready two_servers ["2"]))))
    by (vm_compute; repeat constructor).
  assert (H3 : Forall (fun x => plain (sname x) = true)
                 (table (ext (ready two_servers ["2"]))))
    by (vm_compute; repeat constructor).
  assert (D1 : Py.decode (listing None (ready two_servers ["2"])) =
               Some (listing None (ready two_servers ["2"]))) by (vm_compute; reflexivity).
  assert (D2 : Py.decode (listing (Some "#{session_name}") (ready two_servers ["2"])) =
               Some (listing (Some "#{session_name}") (ready two_servers ["2"])))
    by (vm_compute; reflexivity).
  assert (H4 : stdin (ready two_servers ["2"]) = ["2"]) by (vm_compute; reflexivity).
  assert (H5 : Py.int "2" = Some 2%Z) by (vm_compute; reflexivity).
  assert (H6 : (1 <= 2)%Z) by (vm_compute; discriminate).
  assert (H7 : nth_error (table (ext (ready two_servers ["2"]))) (Z.to_nat (2 - 1)) =
               Some (created_session SSH_KEY_sample "b" "y")) by (vm_compute; reflexivity).
  rewrite (choose_from_table SSH_KEY_sample two_servers _ _ _ _ _ _
             H1 H2 H3 D1 D2 H4 H5 H6 H7).
  reflexivity.
Defined.





End OnTheModel.
